(** * PipesTestStack: the SNS -> SQS -> EventBridge Pipes -> Step Functions
      -> DynamoDB demo stack of [infra/lib/stack.ts]

    The stack is declarative: resource properties, three IAM policy
    statements and a two-state workflow definition.  The resource
    properties are embedded as records, the policy as a list of statements,
    and the workflow definition as a syntax tree of states which a small
    interpreter runs against a table.  The interpreter covers the fragment
    of the Amazon States Language that the definition uses (a JSONPath
    [$.field], the deep scan [$..field], [States.Format], a sequential Map
    state and the DynamoDB put-item task); the table checks the item of a
    put (numbers, key attributes) and holds numbers as numbers.

    [stack.ts] holds two revisions of the stack.  The embedding follows
    the first, in which the workflow maps over the message bodies and the
    put-item task builds its item from the message; the other one differs
    in the workflow only, where it puts a fixed test item. *)

From Stdlib Require Import Ascii String List Bool NArith ZArith DecimalString Lia.
From stdpp Require Import base option list strings gmap fin_maps.
Import ListNotations.
Local Open Scope string_scope.
Set Warnings "-register-all".

(** ** JSON documents *)

(** A number keeps the text of its literal: the workflow only ever copies
    it. *)
Inductive json :=
  | JNull
  | JBool (b : bool)
  | JNum (literal : string)
  | JStr (s : string)
  | JArr (items : list json)
  | JObj (fields : list (string * json)).

Fixpoint assoc {A} (k : string) (l : list (string * A)) : option A :=
  match l with
  | [] => None
  | (k', v) :: l' => if String.eqb k k' then Some v else assoc k l'
  end.

(** [j.name] for an object, nothing for any other document. *)
Definition jfield (name : string) (j : json) : option json :=
  match j with
  | JObj fields => assoc name fields
  | _ => None
  end.

(** ** JSONPath and intrinsic functions, as far as the stack uses them *)

Module JsonPath.

(** ['$'], ['$.name'] and ['$..name']. *)
Inductive path :=
  | Root
  | Field (name : string)
  | DeepScan (name : string).

(** Every value stored under [name], at any depth: at an object its own
    [name] member first, then the matches inside its members in order. *)
Fixpoint deepScan (name : string) (j : json) : list json :=
  match j with
  | JArr items => flat_map (deepScan name) items
  | JObj fields =>
      match assoc name fields with Some v => [v] | None => [] end
      ++ flat_map (fun kv => deepScan name (snd kv)) fields
  | _ => []
  end.

(** A definite path yields its value or fails; the deep scan always
    yields the array of its matches. *)
Definition eval (p : path) (j : json) : option json :=
  match p with
  | Root => Some j
  | Field name => jfield name j
  | DeepScan name => Some (JArr (deepScan name j))
  end.

(** What [JsonPath.stringAt] and [JsonPath.numberAt] are given: a path,
    or the intrinsic [States.Format(template, args...)]. *)
Inductive expr :=
  | At (p : path)
  | Format (template : string) (args : list path).

(** [States.Format]: each [{}] of the template takes the next argument;
    too few or too many arguments is an error. *)
Fixpoint statesFormat (template : string) (args : list string) : option string :=
  match template with
  | EmptyString => match args with [] => Some EmptyString | _ :: _ => None end
  | String c rest =>
      match rest with
      | String d rest' =>
          if Ascii.eqb c "{" && Ascii.eqb d "}" then
            match args with
            | a :: args' => String.append a <$> statesFormat rest' args'
            | [] => None
            end
          else String c <$> statesFormat rest args
      | EmptyString => String c <$> statesFormat rest args
      end
  end.

(** The text an argument of [States.Format] is rendered as: a string as
    it is, a number, a boolean and null by their JSON text.  Arrays and
    objects as arguments are left out of the model. *)
Definition formatArg (j : json) : option string :=
  match j with
  | JStr s => Some s
  | JNum literal => Some literal
  | JBool true => Some "true"
  | JBool false => Some "false"
  | JNull => Some "null"
  | _ => None
  end.

Definition evalExpr (e : expr) (j : json) : option json :=
  match e with
  | At p => eval p j
  | Format template args =>
      vs ← mapM (fun p => eval p j ≫= formatArg) args;
      JStr <$> statesFormat template vs
  end.

End JsonPath.

(** ** DynamoDB attribute values *)

(** The [S] and [N] attribute types, as the item of a put request carries
    them: the value of a number attribute travels as its decimal text. *)
Inductive AttributeValue :=
  | AttrS (s : string)
  | AttrN (n : string).

Definition Item := list (string * AttributeValue).

Module DynamoAttributeValue.

(** [DynamoAttributeValue.fromString] of a literal or of
    [JsonPath.stringAt], and [DynamoAttributeValue.fromNumber] of
    [JsonPath.numberAt]. *)
Inductive t :=
  | fromString (literal : string)
  | fromStringAt (e : JsonPath.expr)
  | fromNumberAt (e : JsonPath.expr).

(** The attribute a template entry resolves to on a given input.  A
    referenced value has to be a JSON string for either attribute type:
    the task fails on a JSON number (README, aws-cdk issue 12456), so the
    measurements travel as strings and become [N] attributes here.
    Whether the text of an [N] attribute is a number is for the table to
    check when the item is put. *)
Definition resolve (v : t) (input : json) : option AttributeValue :=
  match v with
  | fromString literal => Some (AttrS literal)
  | fromStringAt e =>
      match JsonPath.evalExpr e input with
      | Some (JStr s) => Some (AttrS s)
      | _ => None
      end
  | fromNumberAt e =>
      match JsonPath.evalExpr e input with
      | Some (JStr s) => Some (AttrN s)
      | _ => None
      end
  end.

End DynamoAttributeValue.

Definition ItemTemplate := list (string * DynamoAttributeValue.t).

(** The item of a put-item task on one input: every entry resolved, in the
    order of the template; one entry that does not resolve fails the task. *)
Fixpoint resolveItem (template : ItemTemplate) (input : json) : option Item :=
  match template with
  | [] => Some []
  | (name, v) :: template' =>
      a ← DynamoAttributeValue.resolve v input;
      rest ← resolveItem template' input;
      Some ((name, a) :: rest)
  end.

(** ** Resource properties *)

Inductive RemovalPolicy := DESTROY | RETAIN | SNAPSHOT.

Module Duration.
Inductive t :=
  | seconds (n : N)
  | minutes (n : N).

Definition toSeconds (d : t) : N :=
  match d with
  | seconds n => n
  | minutes n => 60 * n
  end.
End Duration.

Module RetentionDays.
Inductive t := ONE_DAY | THREE_DAYS | FIVE_DAYS | ONE_WEEK | TWO_WEEKS | ONE_MONTH.

Definition days (r : t) : N :=
  match r with
  | ONE_DAY => 1 | THREE_DAYS => 3 | FIVE_DAYS => 5
  | ONE_WEEK => 7 | TWO_WEEKS => 14 | ONE_MONTH => 30
  end.
End RetentionDays.

Module TableV2.
Inductive AttributeType := BINARY | NUMBER | STRING.
Record Attribute := { name : string; type : AttributeType }.
Inductive Billing := onDemand.
Inductive TableClass := STANDARD | STANDARD_INFREQUENT_ACCESS.

Record Props := {
  tableName : string;
  partitionKey : Attribute;
  sortKey : option Attribute;
  billing : Billing;
  deletionProtection : bool;
  pointInTimeRecovery : bool;
  tableClass : TableClass;
  timeToLiveAttribute : option string;
  removalPolicy : RemovalPolicy }.
End TableV2.

Module Queue.
Record Props := {
  queueName : string;
  visibilityTimeout : Duration.t;
  retentionPeriod : Duration.t;
  removalPolicy : RemovalPolicy }.
End Queue.

Module Topic.
Record Props := { topicName : string; displayName : string }.
End Topic.

Module SqsSubscription.
(** [queue] is the construct id of the subscribed queue. *)
Record Props := { queue : string; rawMessageDelivery : bool }.
End SqsSubscription.

Module LogGroup.
Record Props := {
  logGroupName : string;
  removalPolicy : RemovalPolicy;
  retention : RetentionDays.t }.
End LogGroup.

(** ** The workflow definition language *)

(** The states the definition is built from.  [iterator] is the chain a
    Map state runs on each item; [table] is the construct id of the table a
    put-item task writes to. *)
Inductive State :=
  | Pass (id comment : string) (inputPath : JsonPath.path)
  | Map (id comment : string) (itemsPath : JsonPath.path)
        (maxConcurrency : nat) (iterator : list State)
  | DynamoPutItem (id comment : string) (item : ItemTemplate) (table : string).

Module StateMachine.
Inductive StateMachineType := EXPRESS | STANDARD.
Inductive LogLevel := OFF | ALL | ERROR | FATAL.

Record LogOptions := {
  destination : string;
  includeExecutionData : bool;
  level : LogLevel }.

Record Props := {
  definitionBody : list State;
  stateMachineName : string;
  stateMachineType : StateMachineType;
  timeout : Duration.t;
  logs : LogOptions }.
End StateMachine.

(** ** IAM *)

(** A resource of a policy statement: ['*'], or the ARN attribute of a
    construct of this stack ([queue.queueArn], [stateMachine.stateMachineArn]),
    which is only known by the construct it belongs to. *)
Inductive ResourceRef :=
  | AnyResource
  | ArnOf (constructId : string).

Record PolicyStatement := {
  actions : list string;
  resources : list ResourceRef }.

Module Role.
Record t := {
  assumedBy : string;
  roleName : string;
  description : string;
  policy : list PolicyStatement }.

Definition addToPolicy (st : PolicyStatement) (r : t) : t :=
  {| assumedBy := assumedBy r; roleName := roleName r;
     description := description r; policy := policy r ++ [st] |}.
End Role.

(** ** The pipe *)

Module CfnPipe.
Inductive PipeState := RUNNING | STOPPED.

Record SqsQueueParameters := {
  batchSize : N;
  maximumBatchingWindowInSeconds : N }.

(** An input template is a JSON object whose members are [<path>]
    references into the event: ['{ "body": <$.body> }'] is
    [[("body", Field "body")]]. *)
Definition InputTemplate := list (string * JsonPath.path).

Record Props := {
  description : string;
  name : string;
  desiredState : PipeState;
  source : ResourceRef;
  sqsQueueParameters : SqsQueueParameters;
  inputTemplate : InputTemplate;
  target : ResourceRef;
  roleArn : ResourceRef }.
End CfnPipe.

(** ** The stack *)

Record Props := { isUnitTest : option bool }.

Inductive Resource :=
  | RTable (p : TableV2.Props)
  | RQueue (p : Queue.Props)
  | RTopic (p : Topic.Props)
  | RSubscription (topic : string) (p : SqsSubscription.Props)
  | RLogGroup (p : LogGroup.Props)
  | RStateMachine (p : StateMachine.Props)
  | RRole (r : Role.t)
  | RPipe (p : CfnPipe.Props).

(** The removal policy of a resource whose properties carry one. *)
Definition removalPolicyOf (r : Resource) : option RemovalPolicy :=
  match r with
  | RTable p => Some (TableV2.removalPolicy p)
  | RQueue p => Some (Queue.removalPolicy p)
  | RLogGroup p => Some (LogGroup.removalPolicy p)
  | _ => None
  end.

Record Stack := {
  stackProps : option Props;
  constructs : list (string * Resource) }.

Section PipesTestStack.

(** The argument of the constructor; it is handed to [super] and read
    nowhere else. *)
Variable props : option Props.

Definition tbl : TableV2.Props :=
  {| TableV2.tableName := "pipes-test-table";
     TableV2.partitionKey := {| TableV2.name := "pk"; TableV2.type := TableV2.STRING |};
     TableV2.sortKey := Some {| TableV2.name := "sk"; TableV2.type := TableV2.STRING |};
     TableV2.billing := TableV2.onDemand;
     TableV2.deletionProtection := false;
     TableV2.pointInTimeRecovery := false;
     TableV2.tableClass := TableV2.STANDARD;
     TableV2.timeToLiveAttribute := Some "ttl";
     TableV2.removalPolicy := DESTROY |}.

Definition queue : Queue.Props :=
  {| Queue.queueName := "pipes-test-queue";
     Queue.visibilityTimeout := Duration.seconds 300;
     Queue.retentionPeriod := Duration.minutes 10;
     Queue.removalPolicy := DESTROY |}.

Definition snsTopic : Topic.Props :=
  {| Topic.topicName := "pipes-test-sns";
     Topic.displayName := "Topic fot EventBridge Pipes Test" |}.

Definition subscription : SqsSubscription.Props :=
  {| SqsSubscription.queue := "PipesTestQueue";
     SqsSubscription.rawMessageDelivery := true |}.

Definition stepFnLogGroup : LogGroup.Props :=
  {| LogGroup.logGroupName := "pipes-test-state-machine";
     LogGroup.removalPolicy := DESTROY;
     LogGroup.retention := RetentionDays.ONE_WEEK |}.

(** The [item] of the put-item task. *)
Definition dynamoDbPutItem_item : ItemTemplate :=
  [ ("pk", DynamoAttributeValue.fromStringAt
             (JsonPath.Format "WDATA#CITY#{}#{}"
                [JsonPath.Field "city"; JsonPath.Field "date"]));
    ("sk", DynamoAttributeValue.fromStringAt (JsonPath.At (JsonPath.Field "inspectTime")));
    ("type", DynamoAttributeValue.fromString "WeatherData");
    ("inspectTime", DynamoAttributeValue.fromStringAt (JsonPath.At (JsonPath.Field "inspectTime")));
    ("tempCelcius", DynamoAttributeValue.fromNumberAt (JsonPath.At (JsonPath.Field "tempCelcius")));
    ("humidityPercent", DynamoAttributeValue.fromNumberAt (JsonPath.At (JsonPath.Field "humidityPercent"))) ].

Definition dynamoDbPutItem : State :=
  DynamoPutItem "DynamoPutItem" "Put item into DynamoDB table"
    dynamoDbPutItem_item "PipesTestTable".

Definition mapState : State :=
  Map "MapInputToDynamoDbPutItem" "Map input to DynamoDB PutItem task"
    JsonPath.Root 1 [dynamoDbPutItem].

(** [new Pass(...).next(mapState)]. *)
Definition passState : list State :=
  [ Pass "SelectBodyFromInput" "Select body from input message" (JsonPath.DeepScan "body");
    mapState ].

Definition stateMachine : StateMachine.Props :=
  {| StateMachine.definitionBody := passState;
     StateMachine.stateMachineName := "pipes-test-state-machine";
     StateMachine.stateMachineType := StateMachine.EXPRESS;
     StateMachine.timeout := Duration.minutes 1;
     StateMachine.logs :=
       {| StateMachine.destination := "PipesTestStateMachineLogGroup";
          StateMachine.includeExecutionData := true;
          StateMachine.level := StateMachine.ALL |} |}.

Definition pipeRole : Role.t :=
  Role.addToPolicy
    {| actions := ["states:Start*"; "states:Stop*"];
       resources := [ArnOf "PipesTestStateMachine"] |}
    (Role.addToPolicy
       {| actions := ["states:ListStateMachines"];
          resources := [AnyResource] |}
       (Role.addToPolicy
          {| actions := ["sqs:ReceiveMessage"; "sqs:DeleteMessage"; "sqs:GetQueueAttributes"];
             resources := [ArnOf "PipesTestQueue"] |}
          {| Role.assumedBy := "pipes.amazonaws.com";
             Role.roleName := "EventBridgePipesTestRole";
             Role.description := "Role assumed by EventBridge Pipes pipe";
             Role.policy := [] |})).

Definition pipe : CfnPipe.Props :=
  {| CfnPipe.description := "EventBridge Pipes Test Pipe";
     CfnPipe.name := "pipes-test-pipe";
     CfnPipe.desiredState := CfnPipe.RUNNING;
     CfnPipe.source := ArnOf "PipesTestQueue";
     CfnPipe.sqsQueueParameters :=
       {| CfnPipe.batchSize := 10;
          CfnPipe.maximumBatchingWindowInSeconds := 45 |};
     CfnPipe.inputTemplate := [("body", JsonPath.Field "body")];
     CfnPipe.target := ArnOf "PipesTestStateMachine";
     CfnPipe.roleArn := ArnOf "PipesTestRole" |}.

(** The constructs by id, in the order of the constructor.  The
    subscription is created by [snsTopic.addSubscription] and has no id
    of its own in the source. *)
Definition PipesTestStack : Stack :=
  {| stackProps := props;
     constructs :=
       [ ("PipesTestTable", RTable tbl);
         ("PipesTestQueue", RQueue queue);
         ("PipesTestSns", RTopic snsTopic);
         ("PipesTestSns/PipesTestQueue", RSubscription "PipesTestSns" subscription);
         ("PipesTestStateMachineLogGroup", RLogGroup stepFnLogGroup);
         ("PipesTestStateMachine", RStateMachine stateMachine);
         ("PipesTestRole", RRole pipeRole);
         ("PipesTestPipe", RPipe pipe) ] |}.

End PipesTestStack.

(** ** Numbers as the table holds them *)

(** The table takes the value of a number attribute as decimal text and
    holds the number: [mantissa] times ten to the [exponent], the mantissa
    without trailing zeros, zero being [0] times ten to the [0].  So 5.1,
    5.10 and 51e-1 are one number. *)
Module DynamoNumber.

Record t := { mantissa : Z; exponent : Z }.

Definition digitOf (c : ascii) : option Z :=
  let n := Z.of_N (N_of_ascii c) in
  if (48 <=? n)%Z && (n <=? 57)%Z then Some (n - 48)%Z else None.

(** The leading digits of a text, and the rest of it. *)
Fixpoint digits (s : string) : list Z * string :=
  match s with
  | EmptyString => ([], EmptyString)
  | String c rest =>
      match digitOf c with
      | Some d => let (ds, rest') := digits rest in (d :: ds, rest')
      | None => ([], s)
      end
  end.

Definition valueOf (ds : list Z) : Z :=
  fold_left (fun acc d => (10 * acc + d)%Z) ds 0%Z.

Fixpoint dropZeros (ds : list Z) : list Z :=
  match ds with
  | d :: rest => if (d =? 0)%Z then dropZeros rest else ds
  | [] => []
  end.

(** An optional sign, and the rest of the text. *)
Definition sign (s : string) : bool * string :=
  match s with
  | String c rest =>
      if Ascii.eqb c "-" then (true, rest)
      else if Ascii.eqb c "+" then (false, rest)
      else (false, s)
  | EmptyString => (false, s)
  end.

(** The exponent part, which has to be the whole of the text left: none,
    or [e] or [E], an optional sign and at least one digit. *)
Definition exponentPart (s : string) : option Z :=
  match s with
  | EmptyString => Some 0%Z
  | String c rest =>
      if Ascii.eqb c "e" || Ascii.eqb c "E" then
        let (negative, rest') := sign rest in
        match digits rest' with
        | (d :: ds, EmptyString) =>
            Some (if negative then - valueOf (d :: ds) else valueOf (d :: ds))%Z
        | _ => None
        end
      else None
  end.

(** The number a text denotes, when the table accepts it: a decimal with
    an optional sign, an optional point and an optional exponent, of at
    most 38 significant digits, and either zero or of a magnitude from
    1E-130 to 9.99...E+125. *)
Definition parse (s : string) : option t :=
  let (negative, s1) := sign s in
  let (whole, s2) := digits s1 in
  let (fraction, s3) :=
    match s2 with
    | String c rest => if Ascii.eqb c "." then digits rest else ([], s2)
    | EmptyString => ([], s2)
    end in
  match (whole ++ fraction)%list, exponentPart s3 with
  | _ :: _, Some e =>
      let significant := dropZeros (whole ++ fraction)%list in
      let trimmed := rev (dropZeros (rev significant)) in
      match trimmed with
      | [] => Some {| mantissa := 0; exponent := 0 |}
      | _ :: _ =>
          let e' := (e - Z.of_nat (length fraction)
                     + Z.of_nat (length significant - length trimmed))%Z in
          let adjusted := (e' + Z.of_nat (length trimmed) - 1)%Z in
          if (length trimmed <=? 38)%nat && (-130 <=? adjusted)%Z && (adjusted <=? 125)%Z
          then Some {| mantissa := (if negative then - valueOf trimmed else valueOf trimmed)%Z;
                       exponent := e' |}
          else None
      end
  | _, _ => None
  end.

(** A text that tells numbers apart, for use as a key. *)
Definition keyText (n : t) : string :=
  NilZero.string_of_int (Z.to_int (mantissa n)) ++ "E"
  ++ NilZero.string_of_int (Z.to_int (exponent n)).

End DynamoNumber.

Arguments DynamoNumber.parse : simpl never.

(** ** The table and the execution of a workflow *)

(** The primary key of an item under a table's key schema: the text of
    the partition key attribute and of the sort key attribute, each of the
    declared type; a number key counts as the number, not as its text.
    This only reads the key off an item: whether the table accepts the
    item, its key attributes included, is [storedForm] below. *)
Definition Key := (string * option string)%type.

Definition keyAttr (a : TableV2.Attribute) (item : Item) : option string :=
  match assoc (TableV2.name a) item, TableV2.type a with
  | Some (AttrS s), TableV2.STRING => Some s
  | Some (AttrN n), TableV2.NUMBER => DynamoNumber.keyText <$> DynamoNumber.parse n
  | _, _ => None
  end.

Definition keyOf (t : TableV2.Props) (item : Item) : option Key :=
  pk ← keyAttr (TableV2.partitionKey t) item;
  match TableV2.sortKey t with
  | None => Some (pk, None)
  | Some a => sk ← keyAttr a item; Some (pk, Some sk)
  end.

(** What the table holds of an attribute: a string as it is, a number as
    the number its text denotes. *)
Inductive StoredValue :=
  | StoredS (s : string)
  | StoredN (n : DynamoNumber.t).

Definition StoredItem := list (string * StoredValue).

Definition storedValue (a : AttributeValue) : option StoredValue :=
  match a with
  | AttrS s => Some (StoredS s)
  | AttrN n => StoredN <$> DynamoNumber.parse n
  end.

Fixpoint storedAttributes (item : Item) : option StoredItem :=
  match item with
  | [] => Some []
  | (name, a) :: item' =>
      v ← storedValue a;
      rest ← storedAttributes item';
      Some ((name, v) :: rest)
  end.

(** A key attribute has to be there with the declared type; a string key
    must not be empty nor longer than the table allows. *)
Definition validKeyAttr (a : TableV2.Attribute) (maxLength : nat) (item : Item) : bool :=
  match assoc (TableV2.name a) item, TableV2.type a with
  | Some (AttrS s), TableV2.STRING =>
      negb (String.eqb s "") && (String.length s <=? maxLength)%nat
  | Some (AttrN n), TableV2.NUMBER =>
      match DynamoNumber.parse n with Some _ => true | None => false end
  | _, _ => false
  end.

(** The checks of the table on the item of a put, and the record it
    holds for an item that passes: every number attribute has to be a
    number, the partition key is at most 2048 bytes and the sort key at
    most 1024.  The limit on the size of a whole item is not modelled. *)
Definition storedForm (t : TableV2.Props) (item : Item) : option StoredItem :=
  if validKeyAttr (TableV2.partitionKey t) 2048 item
     && match TableV2.sortKey t with
        | Some a => validKeyAttr a 1024 item
        | None => true
        end
  then storedAttributes item
  else None.

(** The key and the record of an item the table accepts. *)
Definition storedRecord (t : TableV2.Props) (item : Item) : option (Key * StoredItem) :=
  stored ← storedForm t item;
  k ← keyOf t item;
  Some (k, stored).

(** What an execution acts on: the records of the table by primary key,
    and the log of the put-item writes performed so far, oldest first. *)
Record World := {
  records : gmap Key StoredItem;
  writes : list Item }.

(** A put without a condition expression, as [dynamoDbPutItem] is: an item
    the table accepts becomes the record of its key, whether or not the key
    had one; an item it rejects fails the put and changes nothing. *)
Definition putItem (t : TableV2.Props) (item : Item) (w : World) : option World :=
  '(k, stored) ← storedRecord t item;
  Some {| records := <[k := stored]> (records w); writes := writes w ++ [item] |}.

(** A step of an execution either yields a value or fails; in both cases
    the writes done up to there stay done. *)
Definition Exec (A : Type) : Type := World -> option A * World.

Definition ret {A} (a : A) : Exec A := fun w => (Some a, w).
Definition fail {A} : Exec A := fun w => (None, w).
Definition bind {A B} (m : Exec A) (f : A -> Exec B) : Exec B :=
  fun w => match m w with
           | (Some a, w') => f a w'
           | (None, w') => (None, w')
           end.

Notation "'exec' x <~ m 'in' k" := (bind m (fun x => k))
  (at level 10, x name, m at level 200, k at level 200).

Definition lift {A} (o : option A) : Exec A :=
  match o with Some a => ret a | None => fail end.

(** One item after the other, stopping at the first failure. *)
Fixpoint forEach {A B} (f : A -> Exec B) (l : list A) : Exec (list B) :=
  match l with
  | [] => ret []
  | a :: l' => exec b <~ f a in exec bs <~ forEach f l' in ret (b :: bs)
  end.

Section Execution.

(** The table of the stack; it is the only one, so the [table] of a
    put-item task is not looked up. *)
Variable t : TableV2.Props.

(** The put-item task on one input.  Its output, the response of the
    service, is not modelled beyond being an empty object. *)
Definition runPutItem (template : ItemTemplate) (input : json) : Exec json :=
  fun w =>
    match resolveItem template input with
    | None => (None, w)
    | Some item =>
        match putItem t item w with
        | None => (None, w)
        | Some w' => (Some (JObj []), w')
        end
    end.

(** A Pass state with an input path outputs the selected part of its
    input.  A Map state takes the array at its items path and runs its
    iterator on each element; with [maxConcurrency] 1, as in the stack,
    the iterations run in order, one at a time. *)
Fixpoint runState (s : State) (input : json) {struct s} : Exec json :=
  match s with
  | Pass _ _ inputPath => lift (JsonPath.eval inputPath input)
  | Map _ _ itemsPath _ iterator =>
      match JsonPath.eval itemsPath input with
      | Some (JArr items) =>
          exec outs <~ forEach
                    ((fix chain (ss : list State) (j : json) : Exec json :=
                        match ss with
                        | [] => ret j
                        | s' :: ss' => exec j' <~ runState s' j in chain ss' j'
                        end) iterator) items in
          ret (JArr outs)
      | _ => fail
      end
  | DynamoPutItem _ _ template _ => runPutItem template input
  end.

(** A chain of states: the output of each is the input of the next. *)
Fixpoint runChain (ss : list State) (input : json) : Exec json :=
  match ss with
  | [] => ret input
  | s :: ss' => exec j <~ runState s input in runChain ss' j
  end.

(** One execution of a state machine on its input. *)
Definition execute (m : StateMachine.Props) (input : json) : Exec json :=
  runChain (StateMachine.definitionBody m) input.

End Execution.

(** The put-item tasks of a definition, those inside Map states included. *)
Fixpoint putItemTasks (s : State) : list State :=
  match s with
  | Pass _ _ _ => []
  | Map _ _ _ _ iterator => flat_map putItemTasks iterator
  | DynamoPutItem _ _ _ _ => [s]
  end.

(** The input a pipe hands to its target for a batch of events: the input
    template rendered on each event. *)
Definition renderTemplate (tpl : CfnPipe.InputTemplate) (event : json) : option json :=
  JObj <$> mapM (fun '(name, p) => pair name <$> JsonPath.eval p event) tpl.

Definition pipeInput (p : CfnPipe.Props) (batch : list json) : option json :=
  JArr <$> mapM (renderTemplate (CfnPipe.inputTemplate p)) batch.

(** An SQS event carrying [message] as its (parsed) body. *)
Definition sqsEvent (messageId : string) (message : json) : json :=
  JObj [("messageId", JStr messageId); ("body", message)].

(** The inbound message, as the comment above the put-item task and the
    README give it: an object with these five members, each a string (the
    measurements too).  Further members are not excluded. *)
Record Message := {
  city : string;
  date : string;
  inspectTime : string;
  tempCelcius : string;
  humidityPercent : string }.

Definition jstring (name : string) (j : json) : option string :=
  match jfield name j with
  | Some (JStr s) => Some s
  | _ => None
  end.

Definition asMessage (j : json) : option Message :=
  c ← jstring "city" j;
  d ← jstring "date" j;
  i ← jstring "inspectTime" j;
  t ← jstring "tempCelcius" j;
  h ← jstring "humidityPercent" j;
  Some {| city := c; date := d; inspectTime := i;
          tempCelcius := t; humidityPercent := h |}.

(** The sample message of the README. *)
Definition sampleMessage : json :=
  JObj [ ("city", JStr "Tampere");
         ("date", JStr "2023-10-15");
         ("inspectTime", JStr "2023-10-15T17:00:58+03:00");
         ("tempCelcius", JStr "5.1");
         ("humidityPercent", JStr "58") ].

Definition emptyWorld : World := {| records := ∅; writes := [] |}.

Definition sampleFields : Message :=
  {| city := "Tampere"; date := "2023-10-15";
     inspectTime := "2023-10-15T17:00:58+03:00";
     tempCelcius := "5.1"; humidityPercent := "58" |}.

(** A second message, for the same city, date and inspection time as the
    sample but with another temperature. *)
Definition revisedMessage : json :=
  JObj [ ("city", JStr "Tampere");
         ("date", JStr "2023-10-15");
         ("inspectTime", JStr "2023-10-15T17:00:58+03:00");
         ("tempCelcius", JStr "6.4");
         ("humidityPercent", JStr "58") ].

(** The message as the comment in the stack shows it, the measurements
    being JSON numbers. *)
Definition numericMessage : json :=
  JObj [ ("city", JStr "Tampere");
         ("date", JStr "2023-10-15");
         ("inspectTime", JStr "2023-10-15T17:00:58");
         ("tempCelcius", JNum "0.0");
         ("humidityPercent", JNum "0.0") ].

(** The workflow input the pipe makes of a batch with the sample message
    and the second one. *)
Definition sampleInput : json :=
  JArr [ JObj [("body", sampleMessage)]; JObj [("body", revisedMessage)] ].

(** A third message, for a later inspection time. *)
Definition laterMessage : json :=
  JObj [ ("city", JStr "Tampere");
         ("date", JStr "2023-10-15");
         ("inspectTime", JStr "2023-10-15T18:00:58+03:00");
         ("tempCelcius", JStr "4.80");
         ("humidityPercent", JStr "61") ].

Definition laterFields : Message :=
  {| city := "Tampere"; date := "2023-10-15";
     inspectTime := "2023-10-15T18:00:58+03:00";
     tempCelcius := "4.80"; humidityPercent := "61" |}.

(** The records of a table after the given items were put, oldest first;
    an item the table rejects leaves them as they are. *)
Definition replay (t : TableV2.Props) (items : list Item) (r : gmap Key StoredItem)
  : gmap Key StoredItem :=
  foldl (fun r item => match storedRecord t item with
                       | Some (k, stored) => <[k := stored]> r
                       | None => r
                       end) r items.

(** The shape of an item, given the text of each of its parts. *)
Definition itemOf (pk i t h : string) : Item :=
  [ ("pk", AttrS pk); ("sk", AttrS i); ("type", AttrS "WeatherData");
    ("inspectTime", AttrS i); ("tempCelcius", AttrN t); ("humidityPercent", AttrN h) ].

(** The shape of the record the table holds for such an item. *)
Definition storedItemOf (pk i : string) (t h : DynamoNumber.t) : StoredItem :=
  [ ("pk", StoredS pk); ("sk", StoredS i); ("type", StoredS "WeatherData");
    ("inspectTime", StoredS i); ("tempCelcius", StoredN t); ("humidityPercent", StoredN h) ].

(** ** Evaluation of the role's policy *)

(** An action or resource pattern against a name, [*] standing for any
    run of characters.  The policy uses no other wildcard, and names are
    compared as written. *)
Fixpoint globMatch (pat s : string) : bool :=
  match pat with
  | EmptyString => match s with EmptyString => true | String _ _ => false end
  | String c pat' =>
      if Ascii.eqb c "*" then
        (fix star (s : string) : bool :=
           globMatch pat' s
           || match s with EmptyString => false | String _ s' => star s' end) s
      else
        match s with
        | String d s' => Ascii.eqb c d && globMatch pat' s'
        | EmptyString => false
        end
  end.

(** A pattern without [*]. *)
Fixpoint noStar (pat : string) : bool :=
  match pat with
  | EmptyString => true
  | String c pat' => negb (Ascii.eqb c "*") && noStar pat'
  end.

(** A resource is named by the construct that declares it; ['*'] covers
    every resource, those declared outside the stack too. *)
Definition resourceMatches (r : ResourceRef) (resource : string) : bool :=
  match r with
  | AnyResource => true
  | ArnOf constructId => String.eqb constructId resource
  end.

Definition statementAllows (st : PolicyStatement) (action resource : string) : bool :=
  existsb (fun pat => globMatch pat action) (actions st)
  && existsb (fun r => resourceMatches r resource) (resources st).

(** A role's policy has allow statements only: an action on a resource is
    granted when one statement covers both. *)
Definition allows (policy : list PolicyStatement) (action resource : string) : bool :=
  existsb (fun st => statementAllows st action resource) policy.

(** The constructs of a stack that carry a removal policy, with it. *)
Definition removalPolicies (s : Stack) : list (string * RemovalPolicy) :=
  omap (fun c => pair (fst c) <$> removalPolicyOf (snd c)) (constructs s).

(** ** Messages, keys and what an execution is bound to write *)

(** The primary key and the record of a message, as the item of the
    put-item task spells them. *)
Definition messageKey (m : Message) : Key :=
  ("WDATA#CITY#" ++ city m ++ "#" ++ date m, Some (inspectTime m)).

Definition recordOf (m : Message) : Item :=
  itemOf ("WDATA#CITY#" ++ city m ++ "#" ++ date m)
         (inspectTime m) (tempCelcius m) (humidityPercent m).

(** Whether a text contains the separator [#] of the partition key. *)
Fixpoint hasHash (s : string) : bool :=
  match s with
  | EmptyString => false
  | String c s' => Ascii.eqb c "#" || hasHash s'
  end.

(** The last of the items that has the key [k]. *)
Fixpoint lastWrite (t : TableV2.Props) (k : Key) (items : list Item) : option Item :=
  match items with
  | [] => None
  | item :: rest =>
      match lastWrite t k rest with
      | Some later => Some later
      | None => if decide (keyOf t item = Some k) then Some item else None
      end
  end.

(** The item a put-item task puts on an input, when it succeeds: the
    template resolves and the table accepts the item. *)
Definition putRequest (t : TableV2.Props) (template : ItemTemplate) (j : json) : option Item :=
  item ← resolveItem template j;
  _ ← storedRecord t item;
  Some item.

(** The items put for the leading inputs, up to the first input on which
    the task fails. *)
Fixpoint writtenPrefix (t : TableV2.Props) (template : ItemTemplate) (inputs : list json)
  : list Item :=
  match inputs with
  | [] => []
  | j :: rest =>
      match putRequest t template j with
      | Some item => item :: writtenPrefix t template rest
      | None => []
      end
  end.

(** Whether the put-item task of the stack succeeds on an input, taken on
    its own. *)
Definition putSucceeds (j : json) : bool :=
  match fst (runState tbl dynamoDbPutItem j emptyWorld) with
  | Some _ => true
  | None => false
  end.

(** The five members of a message the item of the put-item task reads. *)
Definition messageMembers : list string :=
  ["city"; "date"; "inspectTime"; "tempCelcius"; "humidityPercent"].

(** ** The other revision of the workflow *)

(** In the second revision of [stack.ts] the Pass state is followed
    directly by a put-item task with a fixed item; the table is the same. *)
Module Earlier.

Definition dynamoDbPutItem_item : ItemTemplate :=
  [ ("pk", DynamoAttributeValue.fromString "test");
    ("sk", DynamoAttributeValue.fromString "test");
    ("type", DynamoAttributeValue.fromString "Test") ].

Definition passState : list State :=
  [ Pass "SelectBodyFromInput" "Select body from input message" (JsonPath.DeepScan "body");
    DynamoPutItem "DynamoPutItem" "" dynamoDbPutItem_item "PipesTestTable" ].

Definition stateMachine : StateMachine.Props :=
  {| StateMachine.definitionBody := passState;
     StateMachine.stateMachineName := "pipes-test-state-machine";
     StateMachine.stateMachineType := StateMachine.EXPRESS;
     StateMachine.timeout := Duration.minutes 1;
     StateMachine.logs :=
       {| StateMachine.destination := "PipesTestStateMachineLogGroup";
          StateMachine.includeExecutionData := true;
          StateMachine.level := StateMachine.ALL |} |}.

End Earlier.

(** * Properties *)

(** ** The item of the put-item task *)

Lemma append_empty_r (s : string) : String.append s EmptyString = s.
Proof.
  induction s as [|c s IH]; [reflexivity|].
  change (String c (String.append s EmptyString) = String c s). by rewrite IH.
Qed.

Lemma jstring_Some name j s : jstring name j = Some s -> jfield name j = Some (JStr s).
Proof. unfold jstring. destruct (jfield name j) as [[]|]; congruence. Qed.

Lemma asMessage_fields j m :
  asMessage j = Some m ->
  jfield "city" j = Some (JStr (city m)) /\
  jfield "date" j = Some (JStr (date m)) /\
  jfield "inspectTime" j = Some (JStr (inspectTime m)) /\
  jfield "tempCelcius" j = Some (JStr (tempCelcius m)) /\
  jfield "humidityPercent" j = Some (JStr (humidityPercent m)).
Proof.
  unfold asMessage. intros H.
  destruct (jstring "city" j) as [c|] eqn:Hc; [|discriminate].
  destruct (jstring "date" j) as [d|] eqn:Hd; [|discriminate].
  destruct (jstring "inspectTime" j) as [i|] eqn:Hi; [|discriminate].
  destruct (jstring "tempCelcius" j) as [t|] eqn:Ht; [|discriminate].
  destruct (jstring "humidityPercent" j) as [h|] eqn:Hh; [|discriminate].
  simpl in H. injection H as <-. simpl.
  repeat split; by apply jstring_Some.
Qed.

(** On a message the template resolves, to the item one expects. *)
Lemma resolveItem_message j m :
  asMessage j = Some m ->
  resolveItem dynamoDbPutItem_item j
  = Some (itemOf ("WDATA#CITY#" ++ city m ++ "#" ++ date m)
                 (inspectTime m) (tempCelcius m) (humidityPercent m)).
Proof.
  intros (Hc & Hd & Hi & Ht & Hh)%asMessage_fields.
  unfold dynamoDbPutItem_item, resolveItem, DynamoAttributeValue.resolve,
    JsonPath.evalExpr, JsonPath.eval.
  cbn. rewrite Hc, Hd, Hi, Ht, Hh. cbn.
  by rewrite append_empty_r.
Qed.

(** Whatever the input, an item the template resolves to has this shape,
    and its parts come from these members of the input. *)
Lemma resolveItem_inv j item :
  resolveItem dynamoDbPutItem_item j = Some item ->
  exists c d i t h,
    item = itemOf ("WDATA#CITY#" ++ c ++ "#" ++ d) i t h /\
    jfield "city" j ≫= JsonPath.formatArg = Some c /\
    jfield "date" j ≫= JsonPath.formatArg = Some d /\
    jfield "inspectTime" j = Some (JStr i) /\
    jfield "tempCelcius" j = Some (JStr t) /\
    jfield "humidityPercent" j = Some (JStr h).
Proof.
  unfold dynamoDbPutItem_item, resolveItem, DynamoAttributeValue.resolve,
    JsonPath.evalExpr, JsonPath.eval.
  cbn. intros H.
  destruct (jfield "city" j ≫= JsonPath.formatArg) as [c|] eqn:Hc; [|discriminate].
  destruct (jfield "date" j ≫= JsonPath.formatArg) as [d|] eqn:Hd; [|discriminate].
  destruct (jfield "inspectTime" j) as [[| | |i| |]|] eqn:Hi; try discriminate.
  destruct (jfield "tempCelcius" j) as [[| | |t| |]|] eqn:Ht; try discriminate.
  destruct (jfield "humidityPercent" j) as [[| | |h| |]|] eqn:Hh; try discriminate.
  cbn in H. rewrite append_empty_r in H. injection H as <-.
  by exists c, d, i, t, h.
Qed.

(** A measurement that is a JSON number makes the task fail. *)
Lemma resolveItem_numeric_measurement j name literal :
  (name = "tempCelcius" \/ name = "humidityPercent") ->
  jfield name j = Some (JNum literal) ->
  resolveItem dynamoDbPutItem_item j = None.
Proof.
  intros Hname Hnum.
  destruct (resolveItem dynamoDbPutItem_item j) as [item|] eqn:H; [|reflexivity].
  apply resolveItem_inv in H as (c & d & i & t & h & _ & _ & _ & _ & Ht & Hh).
  destruct Hname as [-> | ->]; congruence.
Qed.

(** ** One run of the put-item task *)

Lemma keyOf_itemOf pk i t h : keyOf tbl (itemOf pk i t h) = Some (pk, Some i).
Proof. reflexivity. Qed.

Lemma keyOf_resolved j item :
  resolveItem dynamoDbPutItem_item j = Some item -> is_Some (keyOf tbl item).
Proof.
  intros (c & d & i & t & h & -> & _)%resolveItem_inv.
  rewrite keyOf_itemOf. by eexists.
Qed.

Lemma storedRecord_parts (t : TableV2.Props) (item : Item) (k : Key) (stored : StoredItem) :
  storedRecord t item = Some (k, stored) <->
  keyOf t item = Some k /\ storedForm t item = Some stored.
Proof.
  unfold storedRecord.
  destruct (storedForm t item) as [s|]; cbn.
  - destruct (keyOf t item) as [k'|]; cbn.
    + split; [by intros [= -> ->] | by intros [[= ->] [= ->]]].
    + split; [discriminate | intros [? _]; discriminate].
  - split; [discriminate | intros [_ ?]; discriminate].
Qed.

(** What the table makes of an item of the task's shape, when it accepts
    it. *)
Lemma storedForm_itemOf (pk i t h : string) (stored : StoredItem) :
  storedForm tbl (itemOf pk i t h) = Some stored ->
  exists tn hn,
    DynamoNumber.parse t = Some tn /\ DynamoNumber.parse h = Some hn /\
    stored = storedItemOf pk i tn hn.
Proof.
  unfold storedForm.
  destruct (validKeyAttr _ _ _ && _); [|discriminate].
  unfold itemOf. cbn [storedAttributes storedValue].
  destruct (DynamoNumber.parse t) as [tn|]; [|discriminate].
  destruct (DynamoNumber.parse h) as [hn|]; [|discriminate].
  cbn. intros [= <-]. by exists tn, hn.
Qed.

(** One run of the task: it puts the item of [putRequest] or else fails
    and changes nothing. *)
Lemma runPutItem_spec (j : json) (w : World) :
  runState tbl dynamoDbPutItem j w
  = match putRequest tbl dynamoDbPutItem_item j with
    | Some item =>
        (Some (JObj []),
         {| records := replay tbl [item] (records w); writes := writes w ++ [item] |})
    | None => (None, w)
    end.
Proof.
  unfold dynamoDbPutItem, runState, runPutItem, putRequest, putItem, replay.
  destruct (resolveItem dynamoDbPutItem_item j) as [item|]; [|reflexivity].
  cbn -[storedRecord tbl].
  destruct (storedRecord tbl item) as [[k stored]|] eqn:H;
    cbn -[storedRecord tbl]; rewrite ?H; reflexivity.
Qed.

Lemma putRequest_parts (j : json) (item : Item) :
  putRequest tbl dynamoDbPutItem_item j = Some item <->
  resolveItem dynamoDbPutItem_item j = Some item /\ is_Some (storedForm tbl item).
Proof.
  unfold putRequest.
  destruct (resolveItem dynamoDbPutItem_item j) as [item'|] eqn:Hres.
  - cbn -[storedRecord tbl].
    destruct (keyOf_resolved _ _ Hres) as [k Hk].
    destruct (storedForm tbl item') as [stored|] eqn:Hst.
    + assert (storedRecord tbl item' = Some (k, stored)) as ->
        by by apply storedRecord_parts.
      cbn. split; [intros [= <-]; split; [reflexivity | by rewrite Hst] |].
      by intros [[= <-] _].
    + assert (storedRecord tbl item' = None) as ->
        by (unfold storedRecord; by rewrite Hst).
      cbn. split; [discriminate|]. intros [[= <-] [s Hs]]. congruence.
  - cbn. split; [discriminate | intros [? _]; discriminate].
Qed.

(** The task writes the item it puts, and returns. *)
Lemma runPutItem_resolved j item w :
  putRequest tbl dynamoDbPutItem_item j = Some item ->
  runState tbl dynamoDbPutItem j w
  = (Some (JObj []),
     {| records := replay tbl [item] (records w); writes := writes w ++ [item] |}).
Proof. intros H. by rewrite runPutItem_spec, H. Qed.

(** The task fails without a write when the item does not resolve. *)
Lemma runPutItem_unresolved j w :
  resolveItem dynamoDbPutItem_item j = None ->
  runState tbl dynamoDbPutItem j w = (None, w).
Proof.
  intros H. unfold dynamoDbPutItem, runState, runPutItem. by rewrite H.
Qed.

Lemma runPutItem_inv j out w w' :
  runState tbl dynamoDbPutItem j w = (Some out, w') ->
  exists item,
    putRequest tbl dynamoDbPutItem_item j = Some item /\
    resolveItem dynamoDbPutItem_item j = Some item /\
    w' = {| records := replay tbl [item] (records w); writes := writes w ++ [item] |}.
Proof.
  rewrite runPutItem_spec.
  destruct (putRequest tbl dynamoDbPutItem_item j) as [item|] eqn:H; [|discriminate].
  intros [= _ <-]. exists item. split; [reflexivity|].
  split; [by apply putRequest_parts in H as [? _] | reflexivity].
Qed.

(** [putSucceeds] does not depend on the table it is tried on. *)
Lemma putSucceeds_putRequest (j : json) :
  putSucceeds j = true <-> is_Some (putRequest tbl dynamoDbPutItem_item j).
Proof.
  unfold putSucceeds. rewrite runPutItem_spec.
  destruct (putRequest tbl dynamoDbPutItem_item j); cbn.
  - split; [by eexists | done].
  - split; [discriminate | by intros [? ?]].
Qed.

(** For a message, a successful run stores the record of the message, its
    measurements as the numbers their texts denote. *)
Lemma runPutItem_message_inv (j : json) (m : Message) (out : json) (w w' : World) :
  asMessage j = Some m ->
  runState tbl dynamoDbPutItem j w = (Some out, w') ->
  exists tn hn,
    DynamoNumber.parse (tempCelcius m) = Some tn /\
    DynamoNumber.parse (humidityPercent m) = Some hn /\
    storedForm tbl (recordOf m)
    = Some (storedItemOf ("WDATA#CITY#" ++ city m ++ "#" ++ date m) (inspectTime m) tn hn) /\
    w' = {| records := <[messageKey m :=
                           storedItemOf ("WDATA#CITY#" ++ city m ++ "#" ++ date m)
                                        (inspectTime m) tn hn]> (records w);
            writes := writes w ++ [recordOf m] |}.
Proof.
  intros Hm (item & Hput & Hres & ->)%runPutItem_inv.
  rewrite (resolveItem_message _ _ Hm) in Hres. injection Hres as <-.
  apply putRequest_parts in Hput as [_ [stored Hstored]].
  fold (recordOf m) in Hstored |- *.
  destruct (storedForm_itemOf _ _ _ _ _ Hstored) as (tn & hn & Ht & Hh & ->).
  exists tn, hn. do 3 (split; [assumption|]).
  unfold replay, storedRecord. cbn [foldl]. rewrite Hstored. reflexivity.
Qed.

(** C1, as amended: every record the put-item task creates consists of
    exactly the attributes pk, sk, type, inspectTime, tempCelcius and
    humidityPercent, that is the composite key, the type tag, the timestamp
    and the two measurements.  It has no attribute named ttl, the expiry
    attribute the table declares. *)
Theorem written_item_attributes (j out : json) (w w' : World) :
  runState tbl dynamoDbPutItem j w = (Some out, w') ->
  exists item,
    writes w' = (writes w ++ [item])%list /\
    map fst item = ["pk"; "sk"; "type"; "inspectTime"; "tempCelcius"; "humidityPercent"] /\
    TableV2.timeToLiveAttribute tbl = Some "ttl" /\
    assoc "ttl" item = None.
Proof.
  intros (item & _ & Hres & ->)%runPutItem_inv.
  apply resolveItem_inv in Hres as (c & d & i & t & h & -> & _).
  eexists. split; [reflexivity|]. by repeat split.
Qed.

Lemma written_item_attributes_witness :
  exists item,
    writes {| records := replay tbl [itemOf "WDATA#CITY#Tampere#2023-10-15"
                                           "2023-10-15T17:00:58+03:00" "5.1" "58"] ∅;
              writes := [itemOf "WDATA#CITY#Tampere#2023-10-15"
                                "2023-10-15T17:00:58+03:00" "5.1" "58"] |}
    = (writes emptyWorld ++ [item])%list /\
    map fst item = ["pk"; "sk"; "type"; "inspectTime"; "tempCelcius"; "humidityPercent"] /\
    TableV2.timeToLiveAttribute tbl = Some "ttl" /\
    assoc "ttl" item = None.
Proof.
  apply (written_item_attributes sampleMessage (JObj []) emptyWorld).
  apply (runPutItem_resolved sampleMessage). reflexivity.
Defined.

(** C1, as stated, fails on the sample message of the README: the record
    written for it has no ttl attribute, while ttl is the attribute the
    table expires records by. *)
Lemma sample_record_has_no_ttl :
  exists item w',
    runState tbl dynamoDbPutItem sampleMessage emptyWorld = (Some (JObj []), w') /\
    writes w' = [item] /\
    TableV2.timeToLiveAttribute tbl = Some "ttl" /\
    assoc "ttl" item = None.
Proof.
  eexists _, _. split.
  - apply (runPutItem_resolved sampleMessage). reflexivity.
  - by repeat split.
Qed.

(** C3: for a message with members city, date and inspectTime, the item
    the put-item task builds has as partition key WDATA#CITY# followed by
    the city, # and the date, and as sort key the inspectTime member; and
    whenever the put succeeds, that item is what is written and the table
    holds its record under that key. *)
Theorem put_item_composite_key (j : json) (m : Message) :
  asMessage j = Some m ->
  exists item,
    resolveItem dynamoDbPutItem_item j = Some item /\
    assoc "pk" item = Some (AttrS ("WDATA#CITY#" ++ city m ++ "#" ++ date m)) /\
    assoc "sk" item = Some (AttrS (inspectTime m)) /\
    forall w out w',
      runState tbl dynamoDbPutItem j w = (Some out, w') ->
      writes w' = (writes w ++ [item])%list /\
      exists stored,
        records w' !! ("WDATA#CITY#" ++ city m ++ "#" ++ date m, Some (inspectTime m))
        = Some stored /\
        assoc "pk" stored = Some (StoredS ("WDATA#CITY#" ++ city m ++ "#" ++ date m)) /\
        assoc "sk" stored = Some (StoredS (inspectTime m)).
Proof.
  intros Hm. eexists. split; [by apply resolveItem_message|].
  do 2 (split; [reflexivity|]).
  intros w out w' Hrun.
  destruct (runPutItem_message_inv _ _ _ _ _ Hm Hrun) as (tn & hn & _ & _ & _ & ->).
  split; [reflexivity|]. eexists. split; [apply lookup_insert_eq|]. by split.
Qed.

Lemma put_item_composite_key_witness :
  fst (runState tbl dynamoDbPutItem sampleMessage emptyWorld) = Some (JObj []) /\
  exists item,
    resolveItem dynamoDbPutItem_item sampleMessage = Some item /\
    assoc "pk" item = Some (AttrS "WDATA#CITY#Tampere#2023-10-15") /\
    assoc "sk" item = Some (AttrS "2023-10-15T17:00:58+03:00") /\
    forall w out w',
      runState tbl dynamoDbPutItem sampleMessage w = (Some out, w') ->
      writes w' = (writes w ++ [item])%list /\
      exists stored,
        records w' !! ("WDATA#CITY#Tampere#2023-10-15", Some "2023-10-15T17:00:58+03:00")
        = Some stored /\
        assoc "pk" stored = Some (StoredS "WDATA#CITY#Tampere#2023-10-15") /\
        assoc "sk" stored = Some (StoredS "2023-10-15T17:00:58+03:00").
Proof.
  split; [reflexivity|].
  apply (put_item_composite_key sampleMessage sampleFields). reflexivity.
Defined.

(** C5: the two measurements arrive as JSON strings and the put-item task
    sends them as number attributes, with the same text; whenever the put
    succeeds, the record the table then holds has tempCelcius and
    humidityPercent as numbers, the ones those texts denote. *)
Theorem measurements_stored_as_numbers (j : json) (m : Message) :
  asMessage j = Some m ->
  jfield "tempCelcius" j = Some (JStr (tempCelcius m)) /\
  jfield "humidityPercent" j = Some (JStr (humidityPercent m)) /\
  exists item,
    resolveItem dynamoDbPutItem_item j = Some item /\
    assoc "tempCelcius" item = Some (AttrN (tempCelcius m)) /\
    assoc "humidityPercent" item = Some (AttrN (humidityPercent m)) /\
    forall w out w',
      runState tbl dynamoDbPutItem j w = (Some out, w') ->
      writes w' = (writes w ++ [item])%list /\
      exists stored t h,
        records w' !! ("WDATA#CITY#" ++ city m ++ "#" ++ date m, Some (inspectTime m))
        = Some stored /\
        DynamoNumber.parse (tempCelcius m) = Some t /\
        DynamoNumber.parse (humidityPercent m) = Some h /\
        assoc "tempCelcius" stored = Some (StoredN t) /\
        assoc "humidityPercent" stored = Some (StoredN h).
Proof.
  intros Hm.
  destruct (asMessage_fields _ _ Hm) as (_ & _ & _ & Ht & Hh).
  do 2 (split; [assumption|]).
  eexists. split; [by apply resolveItem_message|].
  do 2 (split; [reflexivity|]).
  intros w out w' Hrun.
  destruct (runPutItem_message_inv _ _ _ _ _ Hm Hrun) as (tn & hn & Htn & Hhn & _ & ->).
  split; [reflexivity|]. eexists _, tn, hn.
  split; [apply lookup_insert_eq|]. by repeat split.
Qed.

Lemma measurements_stored_as_numbers_witness :
  fst (runState tbl dynamoDbPutItem sampleMessage emptyWorld) = Some (JObj []) /\
  DynamoNumber.parse "5.1" = Some {| DynamoNumber.mantissa := 51; DynamoNumber.exponent := -1 |} /\
  DynamoNumber.parse "58" = Some {| DynamoNumber.mantissa := 58; DynamoNumber.exponent := 0 |} /\
  jfield "tempCelcius" sampleMessage = Some (JStr "5.1") /\
  jfield "humidityPercent" sampleMessage = Some (JStr "58") /\
  exists item,
    resolveItem dynamoDbPutItem_item sampleMessage = Some item /\
    assoc "tempCelcius" item = Some (AttrN "5.1") /\
    assoc "humidityPercent" item = Some (AttrN "58") /\
    forall w out w',
      runState tbl dynamoDbPutItem sampleMessage w = (Some out, w') ->
      writes w' = (writes w ++ [item])%list /\
      exists stored t h,
        records w' !! ("WDATA#CITY#Tampere#2023-10-15", Some "2023-10-15T17:00:58+03:00")
        = Some stored /\
        DynamoNumber.parse "5.1" = Some t /\
        DynamoNumber.parse "58" = Some h /\
        assoc "tempCelcius" stored = Some (StoredN t) /\
        assoc "humidityPercent" stored = Some (StoredN h).
Proof.
  do 3 (split; [reflexivity|]).
  apply (measurements_stored_as_numbers sampleMessage sampleFields). reflexivity.
Defined.

(** C9: in the item the put-item task builds for a message the sk
    attribute equals the inspectTime attribute, both being the message's
    inspectTime member, and the type attribute is the string WeatherData
    whatever the message; whenever the put succeeds, the same holds of the
    record the table keeps. *)
Theorem sort_key_is_inspect_time (j : json) (m : Message) :
  asMessage j = Some m ->
  exists item,
    resolveItem dynamoDbPutItem_item j = Some item /\
    assoc "sk" item = assoc "inspectTime" item /\
    assoc "inspectTime" item = Some (AttrS (inspectTime m)) /\
    assoc "type" item = Some (AttrS "WeatherData") /\
    forall w out w',
      runState tbl dynamoDbPutItem j w = (Some out, w') ->
      writes w' = (writes w ++ [item])%list /\
      exists stored,
        records w' !! ("WDATA#CITY#" ++ city m ++ "#" ++ date m, Some (inspectTime m))
        = Some stored /\
        assoc "sk" stored = assoc "inspectTime" stored /\
        assoc "inspectTime" stored = Some (StoredS (inspectTime m)) /\
        assoc "type" stored = Some (StoredS "WeatherData").
Proof.
  intros Hm. eexists. split; [by apply resolveItem_message|].
  do 3 (split; [reflexivity|]).
  intros w out w' Hrun.
  destruct (runPutItem_message_inv _ _ _ _ _ Hm Hrun) as (tn & hn & _ & _ & _ & ->).
  split; [reflexivity|]. eexists. split; [apply lookup_insert_eq|]. by repeat split.
Qed.

Lemma sort_key_is_inspect_time_witness :
  fst (runState tbl dynamoDbPutItem sampleMessage emptyWorld) = Some (JObj []) /\
  exists item,
    resolveItem dynamoDbPutItem_item sampleMessage = Some item /\
    assoc "sk" item = assoc "inspectTime" item /\
    assoc "inspectTime" item = Some (AttrS "2023-10-15T17:00:58+03:00") /\
    assoc "type" item = Some (AttrS "WeatherData") /\
    forall w out w',
      runState tbl dynamoDbPutItem sampleMessage w = (Some out, w') ->
      writes w' = (writes w ++ [item])%list /\
      exists stored,
        records w' !! ("WDATA#CITY#Tampere#2023-10-15", Some "2023-10-15T17:00:58+03:00")
        = Some stored /\
        assoc "sk" stored = assoc "inspectTime" stored /\
        assoc "inspectTime" stored = Some (StoredS "2023-10-15T17:00:58+03:00") /\
        assoc "type" stored = Some (StoredS "WeatherData").
Proof.
  split; [reflexivity|].
  apply (sort_key_is_inspect_time sampleMessage sampleFields). reflexivity.
Defined.

(** The put rejects a measurement that is not a number, and an empty
    inspection time, which would be an empty sort key. *)
Example put_rejects_text_measurement :
  asMessage (JObj [ ("city", JStr "Tampere"); ("date", JStr "2023-10-15");
                    ("inspectTime", JStr "2023-10-15T17:00:58+03:00");
                    ("tempCelcius", JStr "abc"); ("humidityPercent", JStr "58") ])
  <> None /\
  runState tbl dynamoDbPutItem
    (JObj [ ("city", JStr "Tampere"); ("date", JStr "2023-10-15");
            ("inspectTime", JStr "2023-10-15T17:00:58+03:00");
            ("tempCelcius", JStr "abc"); ("humidityPercent", JStr "58") ]) emptyWorld
  = (None, emptyWorld).
Proof. split; [discriminate | reflexivity]. Qed.

Example put_rejects_empty_sort_key :
  runState tbl dynamoDbPutItem
    (JObj [ ("city", JStr "Tampere"); ("date", JStr "2023-10-15");
            ("inspectTime", JStr ""); ("tempCelcius", JStr "5.1");
            ("humidityPercent", JStr "58") ]) emptyWorld
  = (None, emptyWorld).
Proof. reflexivity. Qed.

(** ** An execution of the workflow *)

Lemma bind_ret {A} (m : Exec A) (w : World) : bind m ret w = m w.
Proof. unfold bind, ret. by destruct (m w) as [[a|] w']. Qed.

(** The Pass state selects every body of the input and the Map state
    receives them as its items. *)
Lemma execute_map_over_bodies (input : json) (w : World) :
  runState tbl (Pass "SelectBodyFromInput" "Select body from input message"
                     (JsonPath.DeepScan "body")) input w
  = (Some (JArr (JsonPath.deepScan "body" input)), w) /\
  execute tbl stateMachine input w
  = runState tbl mapState (JArr (JsonPath.deepScan "body" input)) w.
Proof.
  split; [reflexivity|].
  unfold execute, stateMachine, passState. simpl StateMachine.definitionBody.
  change (bind (runState tbl mapState (JArr (JsonPath.deepScan "body" input))) ret w
          = runState tbl mapState (JArr (JsonPath.deepScan "body" input)) w).
  apply bind_ret.
Qed.

(** The Map state runs its iterator, the put-item task, on each item. *)
Lemma runState_mapState (items : list json) (w : World) :
  runState tbl mapState (JArr items) w
  = bind (forEach (runChain tbl [dynamoDbPutItem]) items) (fun outs => ret (JArr outs)) w.
Proof. reflexivity. Qed.

Lemma runChain_put (j : json) (w : World) :
  runChain tbl [dynamoDbPutItem] j w = runState tbl dynamoDbPutItem j w.
Proof. apply (bind_ret (runState tbl dynamoDbPutItem j)). Qed.

Lemma replay_app (t : TableV2.Props) (a b : list Item) (r : gmap Key StoredItem) :
  replay t (a ++ b) r = replay t b (replay t a r).
Proof. unfold replay. apply foldl_app. Qed.

Lemma world_eta (w : World) :
  w = {| records := replay tbl [] (records w); writes := writes w ++ [] |}.
Proof. destruct w as [r ws]. simpl. by rewrite app_nil_r. Qed.

Lemma forEach_cons {A B} (f : A -> Exec B) (a : A) (l : list A) (w : World) :
  forEach f (a :: l) w
  = match f a w with
    | (Some b, w') =>
        match forEach f l w' with
        | (Some bs, w'') => (Some (b :: bs), w'')
        | (None, w'') => (None, w'')
        end
    | (None, w') => (None, w')
    end.
Proof. reflexivity. Qed.

(** The iterations of the Map state, whatever the items: the writes are
    those of the leading items on which the task succeeds, and the outcome
    is a success when these are all the items. *)
Lemma forEach_put_prefix (items : list json) (w : World) :
  forEach (runChain tbl [dynamoDbPutItem]) items w
  = ((if decide (length (writtenPrefix tbl dynamoDbPutItem_item items) = length items)
      then Some (replicate (length items) (JObj []))
      else None),
     {| records := replay tbl (writtenPrefix tbl dynamoDbPutItem_item items) (records w);
        writes := writes w ++ writtenPrefix tbl dynamoDbPutItem_item items |}).
Proof.
  revert w. induction items as [|j items IH]; intros w.
  - cbn [forEach writtenPrefix]. unfold ret. rewrite decide_True by done.
    f_equal. apply world_eta.
  - rewrite forEach_cons, runChain_put, runPutItem_spec. cbn [writtenPrefix].
    destruct (putRequest tbl dynamoDbPutItem_item j) as [item|] eqn:Hput.
    + rewrite IH. cbn [records writes length].
      rewrite <- replay_app, <- app_assoc.
      destruct (decide (length (writtenPrefix tbl dynamoDbPutItem_item items) = length items))
        as [Hlen|Hlen].
      * rewrite decide_True by (by rewrite Hlen). reflexivity.
      * rewrite decide_False by (intros [=]; contradiction). reflexivity.
    + rewrite decide_False by (cbn; lia). f_equal. apply world_eta.
Qed.

Lemma execute_prefix (input : json) (w : World) :
  execute tbl stateMachine input w
  = ((if decide (length (writtenPrefix tbl dynamoDbPutItem_item
                           (JsonPath.deepScan "body" input))
                 = length (JsonPath.deepScan "body" input))
      then Some (JArr (replicate (length (JsonPath.deepScan "body" input)) (JObj [])))
      else None),
     {| records := replay tbl (writtenPrefix tbl dynamoDbPutItem_item
                                 (JsonPath.deepScan "body" input)) (records w);
        writes := writes w ++ writtenPrefix tbl dynamoDbPutItem_item
                                (JsonPath.deepScan "body" input) |}).
Proof.
  destruct (execute_map_over_bodies input w) as [_ ->].
  rewrite runState_mapState. unfold bind. rewrite forEach_put_prefix.
  by destruct (decide _).
Qed.

Lemma writtenPrefix_length (inputs : list json) :
  length (writtenPrefix tbl dynamoDbPutItem_item inputs) <= length inputs.
Proof.
  induction inputs as [|j inputs IH]; [done|].
  cbn [writtenPrefix]. destruct (putRequest tbl dynamoDbPutItem_item j); cbn [length]; lia.
Qed.

(** The written items are the items put for the inputs they stand for. *)
Lemma writtenPrefix_requests (inputs : list json) :
  Forall2 (fun j item => putRequest tbl dynamoDbPutItem_item j = Some item)
          (take (length (writtenPrefix tbl dynamoDbPutItem_item inputs)) inputs)
          (writtenPrefix tbl dynamoDbPutItem_item inputs).
Proof.
  induction inputs as [|j inputs IH]; [constructor|].
  cbn [writtenPrefix].
  destruct (putRequest tbl dynamoDbPutItem_item j) as [item|] eqn:Hput; [|constructor].
  cbn [length take]. by constructor.
Qed.

Lemma writtenPrefix_all (inputs : list json) :
  Forall (fun j => putSucceeds j = true) inputs ->
  Forall2 (fun j item => putRequest tbl dynamoDbPutItem_item j = Some item)
          inputs (writtenPrefix tbl dynamoDbPutItem_item inputs).
Proof.
  induction 1 as [|j inputs [item Hput]%putSucceeds_putRequest _ IH]; [constructor|].
  cbn [writtenPrefix]. rewrite Hput. by constructor.
Qed.

Lemma writtenPrefix_stop (good : list json) (bad : json) (rest : list json) :
  putSucceeds bad = false ->
  writtenPrefix tbl dynamoDbPutItem_item (good ++ bad :: rest)
  = writtenPrefix tbl dynamoDbPutItem_item good.
Proof.
  intros Hbad.
  assert (putRequest tbl dynamoDbPutItem_item bad = None) as Hnone.
  { destruct (putRequest tbl dynamoDbPutItem_item bad) eqn:Hput; [|reflexivity].
    assert (putSucceeds bad = true) by (apply putSucceeds_putRequest; by eexists).
    congruence. }
  induction good as [|j good IH].
  - cbn [app writtenPrefix]. by rewrite Hnone.
  - cbn [app writtenPrefix]. destruct (putRequest tbl dynamoDbPutItem_item j); [|done].
    by rewrite IH.
Qed.

Lemma requests_resolve (inputs : list json) (items : list Item) :
  Forall2 (fun j item => putRequest tbl dynamoDbPutItem_item j = Some item) inputs items ->
  Forall2 (fun j item => resolveItem dynamoDbPutItem_item j = Some item) inputs items /\
  Forall (fun item => is_Some (storedForm tbl item)) items.
Proof.
  induction 1 as [|j item inputs items [Hres Hst]%putRequest_parts _ [IH1 IH2]].
  - by split; constructor.
  - by split; constructor.
Qed.

Lemma sampleInput_from_pipe :
  pipeInput pipe [sqsEvent "m1" sampleMessage; sqsEvent "m2" revisedMessage]
  = Some sampleInput.
Proof. reflexivity. Qed.

(** An execution in full: the writes are the records of the leading body
    elements on which the put succeeds, and it succeeds when all do. *)
Lemma execute_stateMachine (input : json) (w : World) :
  exists r recs,
    execute tbl stateMachine input w
    = (r, {| records := replay tbl recs (records w); writes := writes w ++ recs |}) /\
    Forall2 (fun j item => resolveItem dynamoDbPutItem_item j = Some item)
            (take (length recs) (JsonPath.deepScan "body" input)) recs /\
    Forall (fun item => is_Some (storedForm tbl item)) recs /\
    (is_Some r <-> length recs = length (JsonPath.deepScan "body" input)).
Proof.
  eexists _, _. split; [apply execute_prefix|].
  destruct (requests_resolve _ _ (writtenPrefix_requests (JsonPath.deepScan "body" input)))
    as [Hres Hst].
  split; [exact Hres|]. split; [exact Hst|].
  destruct (decide _) as [Hlen|Hlen].
  - split; [done | by eexists].
  - split; [by intros [? ?] | done].
Qed.

(** C4, as amended: when the body extracted from a workflow input has n
    elements and the put-item step succeeds on each of them, the execution
    succeeds and performs exactly n put-item writes, the i-th being the
    item of the i-th element.  The Pass state extracts the elements and
    the Map state iterates over them. *)
Theorem one_write_per_body_element (input : json) (n : nat) (w : World) :
  length (JsonPath.deepScan "body" input) = n ->
  Forall (fun j => putSucceeds j = true) (JsonPath.deepScan "body" input) ->
  exists outs recs,
    execute tbl stateMachine input w
    = (Some (JArr outs),
       {| records := replay tbl recs (records w); writes := writes w ++ recs |}) /\
    length recs = n /\
    Forall2 (fun j item => resolveItem dynamoDbPutItem_item j = Some item)
            (JsonPath.deepScan "body" input) recs.
Proof.
  intros Hn Hok.
  destruct (requests_resolve _ _ (writtenPrefix_all _ Hok)) as [Hres _].
  pose proof (Forall2_length _ _ _ Hres) as Hlen.
  eexists _, _. split.
  - rewrite execute_prefix. rewrite decide_True by done. reflexivity.
  - split; [congruence | exact Hres].
Qed.

Lemma one_write_per_body_element_witness :
  exists outs recs,
    execute tbl stateMachine sampleInput emptyWorld
    = (Some (JArr outs),
       {| records := replay tbl recs (records emptyWorld);
          writes := writes emptyWorld ++ recs |}) /\
    length recs = 2 /\
    Forall2 (fun j item => resolveItem dynamoDbPutItem_item j = Some item)
            (JsonPath.deepScan "body" sampleInput) recs.
Proof.
  apply (one_write_per_body_element sampleInput 2 emptyWorld).
  - reflexivity.
  - repeat constructor.
Defined.

(** An element whose measurements are JSON numbers aborts the execution
    before its write. *)
Example numeric_message_aborts :
  execute tbl stateMachine (JArr [JObj [("body", numericMessage)]]) emptyWorld
  = (None, emptyWorld).
Proof. reflexivity. Qed.

(** C4, as stated, fails: for the message as the comment in the stack
    shows it, with JSON numbers as measurements, the extracted body has
    one element and the execution performs no write at all. *)
Lemma numeric_body_element_not_written :
  length (JsonPath.deepScan "body" (JArr [JObj [("body", numericMessage)]])) = 1 /\
  execute tbl stateMachine (JArr [JObj [("body", numericMessage)]]) emptyWorld
  = (None, emptyWorld) /\
  writes (snd (execute tbl stateMachine (JArr [JObj [("body", numericMessage)]]) emptyWorld))
  = [].
Proof. by repeat split. Qed.

(** ** What an execution does to the table *)

Lemma replay_snoc (t : TableV2.Props) (items : list Item) (item : Item)
      (r : gmap Key StoredItem) :
  replay t (items ++ [item]) r
  = match storedRecord t item with
    | Some (k, stored) => <[k := stored]> (replay t items r)
    | None => replay t items r
    end.
Proof. by rewrite replay_app. Qed.

(** Putting never removes a record. *)
Lemma replay_keeps (t : TableV2.Props) (items : list Item) (r : gmap Key StoredItem) (k : Key) :
  is_Some (r !! k) -> is_Some (replay t items r !! k).
Proof.
  induction items as [|item items IH] using rev_ind; [done|].
  intros Hk. rewrite replay_snoc.
  destruct (storedRecord t item) as [[k' stored]|]; [|by apply IH].
  destruct (decide (k' = k)) as [->|Hne].
  - rewrite lookup_insert_eq. by eexists.
  - rewrite lookup_insert_ne by done. by apply IH.
Qed.

(** A key none of the items has keeps its record. *)
Lemma replay_other (t : TableV2.Props) (items : list Item) (r : gmap Key StoredItem) (k : Key) :
  (forall item, item ∈ items -> keyOf t item ≠ Some k) ->
  replay t items r !! k = r !! k.
Proof.
  induction items as [|item items IH] using rev_ind; [done|].
  intros Hk. rewrite replay_snoc.
  assert (replay t items r !! k = r !! k) as Hrest.
  { apply IH. intros i Hi. apply Hk. set_solver. }
  destruct (storedRecord t item) as [[k' stored]|] eqn:Hrec; [|exact Hrest].
  apply storedRecord_parts in Hrec as [Hkey _].
  rewrite lookup_insert_ne; [exact Hrest|].
  intros ->. by apply (Hk item); [set_solver|].
Qed.

(** A record of the table is an old one or the record of one of the
    items. *)
Lemma replay_origin (t : TableV2.Props) (items : list Item) (r : gmap Key StoredItem)
      (k : Key) (stored : StoredItem) :
  replay t items r !! k = Some stored ->
  r !! k = Some stored \/
  exists item, item ∈ items /\ keyOf t item = Some k /\ storedForm t item = Some stored.
Proof.
  revert stored. induction items as [|i items IH] using rev_ind; intros stored; [by left|].
  rewrite replay_snoc. destruct (storedRecord t i) as [[k' s]|] eqn:Hrec.
  - apply storedRecord_parts in Hrec as [Hkey Hst].
    destruct (decide (k' = k)) as [->|Hne].
    + rewrite lookup_insert_eq. intros [= ->]. right. exists i. split; [set_solver | done].
    + rewrite lookup_insert_ne by done.
      intros H. apply IH in H as [Hold|(item & Hin & Hitem)]; [by left|].
      right. exists item. split; [|exact Hitem]. apply elem_of_app. by left.
  - intros H. apply IH in H as [Hold|(item & Hin & Hitem)]; [by left|].
    right. exists item. split; [|exact Hitem]. apply elem_of_app. by left.
Qed.

(** C6, as amended: the workflow's only table operation is the single
    put-item step, and an execution only puts: it removes no record, it
    leaves the record of every composite key it does not write as it was,
    and every record of the table afterwards was there before or is the
    record of an item the put-item step wrote for a body element.  The put
    has no condition, so the last item written under a composite key is the
    one whose record the table holds, in place of any earlier record of
    that key. *)
Theorem workflow_only_puts (input : json) (w : World) :
  flat_map putItemTasks (StateMachine.definitionBody stateMachine) = [dynamoDbPutItem] /\
  exists r recs,
    execute tbl stateMachine input w
    = (r, {| records := replay tbl recs (records w); writes := writes w ++ recs |}) /\
    Forall2 (fun j item => resolveItem dynamoDbPutItem_item j = Some item)
            (take (length recs) (JsonPath.deepScan "body" input)) recs /\
    Forall (fun item => is_Some (storedForm tbl item)) recs /\
    (forall k, is_Some (records w !! k) -> is_Some (replay tbl recs (records w) !! k)) /\
    (forall k, (forall item, item ∈ recs -> keyOf tbl item ≠ Some k) ->
               replay tbl recs (records w) !! k = records w !! k) /\
    (forall k stored, replay tbl recs (records w) !! k = Some stored ->
                      records w !! k = Some stored \/
                      exists item, item ∈ recs /\ keyOf tbl item = Some k /\
                                   storedForm tbl item = Some stored) /\
    (forall recs' item k, recs = (recs' ++ [item])%list -> keyOf tbl item = Some k ->
                          is_Some (storedForm tbl item) /\
                          replay tbl recs (records w) !! k = storedForm tbl item).
Proof.
  split; [reflexivity|].
  destruct (execute_stateMachine input w) as (r & recs & Hrun & Hall & Hst & _).
  exists r, recs. split; [exact Hrun|]. split; [exact Hall|]. split; [exact Hst|].
  split; [intros k; apply replay_keeps|].
  split; [intros k; apply replay_other|].
  split; [intros k stored; apply replay_origin|].
  intros recs' item k -> Hk.
  apply Forall_app in Hst as [_ Hitem]. apply Forall_singleton in Hitem as [stored Hstored].
  split; [by eexists|].
  rewrite replay_snoc.
  assert (storedRecord tbl item = Some (k, stored)) as -> by by apply storedRecord_parts.
  rewrite Hstored. apply lookup_insert_eq.
Qed.

(** C6, as stated, fails: after the sample message was stored, a second
    message for the same city, date and inspection time makes the put-item
    step replace the stored record by another one. *)
Lemma second_message_replaces_record :
  exists w1 w2 k item1 item2,
    execute tbl stateMachine (JArr [JObj [("body", sampleMessage)]]) emptyWorld
    = (Some (JArr [JObj []]), w1) /\
    records w1 !! k = Some item1 /\
    assoc "tempCelcius" item1
    = Some (StoredN {| DynamoNumber.mantissa := 51; DynamoNumber.exponent := -1 |}) /\
    execute tbl stateMachine (JArr [JObj [("body", revisedMessage)]]) w1
    = (Some (JArr [JObj []]), w2) /\
    records w2 !! k = Some item2 /\
    assoc "tempCelcius" item2
    = Some (StoredN {| DynamoNumber.mantissa := 64; DynamoNumber.exponent := -1 |}) /\
    item1 <> item2 /\
    size (records w2) = 1 /\
    length (writes w2) = 2.
Proof.
  exists {| records := {[ ("WDATA#CITY#Tampere#2023-10-15", Some "2023-10-15T17:00:58+03:00")
                          := storedItemOf "WDATA#CITY#Tampere#2023-10-15"
                               "2023-10-15T17:00:58+03:00"
                               {| DynamoNumber.mantissa := 51; DynamoNumber.exponent := -1 |}
                               {| DynamoNumber.mantissa := 58; DynamoNumber.exponent := 0 |} ]};
            writes := [itemOf "WDATA#CITY#Tampere#2023-10-15"
                              "2023-10-15T17:00:58+03:00" "5.1" "58"] |}.
  exists {| records := {[ ("WDATA#CITY#Tampere#2023-10-15", Some "2023-10-15T17:00:58+03:00")
                          := storedItemOf "WDATA#CITY#Tampere#2023-10-15"
                               "2023-10-15T17:00:58+03:00"
                               {| DynamoNumber.mantissa := 64; DynamoNumber.exponent := -1 |}
                               {| DynamoNumber.mantissa := 58; DynamoNumber.exponent := 0 |} ]};
            writes := [itemOf "WDATA#CITY#Tampere#2023-10-15"
                              "2023-10-15T17:00:58+03:00" "5.1" "58";
                       itemOf "WDATA#CITY#Tampere#2023-10-15"
                              "2023-10-15T17:00:58+03:00" "6.4" "58"] |}.
  exists ("WDATA#CITY#Tampere#2023-10-15", Some "2023-10-15T17:00:58+03:00").
  eexists _, _.
  split; [reflexivity|].
  split; [apply lookup_singleton_eq|].
  split; [reflexivity|].
  split.
  { vm_compute. reflexivity. }
  split; [apply lookup_singleton_eq|].
  split; [reflexivity|].
  split; [discriminate|].
  split; [apply map_size_singleton | reflexivity].
Qed.

(** ** The permissions of the pipe's role *)

Lemma globMatch_literal (pat s : string) :
  noStar pat = true -> (globMatch pat s = true <-> pat = s).
Proof.
  revert s. induction pat as [|c pat IH]; intros s Hns.
  - destruct s; simpl; split; congruence.
  - simpl in Hns. apply andb_true_iff in Hns as [Hc Hns].
    apply negb_true_iff in Hc. simpl. rewrite Hc.
    destruct s as [|d s]; [split; discriminate|].
    rewrite andb_true_iff, Ascii.eqb_eq, (IH s Hns).
    split; [intros [-> ->]; reflexivity | intros [= -> ->]; by split].
Qed.

Lemma globMatch_star (s : string) : globMatch "*" s = true.
Proof. induction s as [|d s IH]; [reflexivity|]. exact IH. Qed.

Lemma globMatch_prefix (pat s : string) :
  noStar pat = true ->
  (globMatch (pat ++ "*") s = true <-> exists rest, s = pat ++ rest).
Proof.
  revert s. induction pat as [|c pat IH]; intros s Hns.
  - split; [by exists s | intros _; apply globMatch_star].
  - simpl in Hns. apply andb_true_iff in Hns as [Hc Hns].
    apply negb_true_iff in Hc.
    change (String c pat ++ "*") with (String c (pat ++ "*")).
    simpl. rewrite Hc.
    destruct s as [|d s].
    + split; [discriminate | by intros [rest [=]]].
    + rewrite andb_true_iff, Ascii.eqb_eq, (IH s Hns). split.
      * intros [-> [rest ->]]. by exists rest.
      * intros [rest [= -> ->]]. split; [reflexivity | by exists rest].
Qed.

(** C2, as amended: the role's policy is three statements, which grant
    receive-message, delete-message and get-queue-attributes on the queue,
    every action whose name starts with states:Start or states:Stop on the
    state machine, and states:ListStateMachines on every resource (its
    statement names the resource '*'); nothing else is granted. *)
Theorem pipe_role_permissions (action resource : string) :
  Role.policy pipeRole
  = [ {| actions := ["sqs:ReceiveMessage"; "sqs:DeleteMessage"; "sqs:GetQueueAttributes"];
         resources := [ArnOf "PipesTestQueue"] |};
      {| actions := ["states:ListStateMachines"]; resources := [AnyResource] |};
      {| actions := ["states:Start*"; "states:Stop*"];
         resources := [ArnOf "PipesTestStateMachine"] |} ] /\
  (allows (Role.policy pipeRole) action resource = true <->
     (resource = "PipesTestQueue" /\
      (action = "sqs:ReceiveMessage" \/ action = "sqs:DeleteMessage" \/
       action = "sqs:GetQueueAttributes")) \/
     action = "states:ListStateMachines" \/
     (resource = "PipesTestStateMachine" /\
      ((exists rest, action = "states:Start" ++ rest) \/
       (exists rest, action = "states:Stop" ++ rest)))).
Proof.
  split; [reflexivity|].
  unfold allows, statementAllows, resourceMatches. cbn [Role.policy pipeRole Role.addToPolicy
    app existsb actions resources].
  rewrite !orb_false_r, !orb_true_iff, !andb_true_iff, !orb_true_iff, !String.eqb_eq.
  rewrite !globMatch_literal by reflexivity.
  rewrite (globMatch_prefix "states:Start"), (globMatch_prefix "states:Stop") by reflexivity.
  intuition (subst; auto).
Qed.

(** C2, as stated, fails: the statement for states:ListStateMachines names
    the resource '*', so that action is granted on resources other than the
    queue and the state machine, the table for one. *)
Lemma list_state_machines_on_every_resource :
  In {| actions := ["states:ListStateMachines"]; resources := [AnyResource] |}
     (Role.policy pipeRole) /\
  allows (Role.policy pipeRole) "states:ListStateMachines" "PipesTestTable" = true /\
  "PipesTestTable" <> "PipesTestQueue" /\
  "PipesTestTable" <> "PipesTestStateMachine".
Proof.
  split; [right; left; reflexivity|].
  split; [reflexivity|]. split; discriminate.
Qed.

(** ** The rendered configuration *)

(** C7: the table declares a partition key named pk and a sort key named
    sk, both of type string, and the time-to-live attribute ttl. *)
Theorem table_key_schema (props : option Props) :
  assoc "PipesTestTable" (constructs (PipesTestStack props)) = Some (RTable tbl) /\
  TableV2.partitionKey tbl = {| TableV2.name := "pk"; TableV2.type := TableV2.STRING |} /\
  TableV2.sortKey tbl = Some {| TableV2.name := "sk"; TableV2.type := TableV2.STRING |} /\
  TableV2.timeToLiveAttribute tbl = Some "ttl".
Proof. by repeat split. Qed.

(** C8: whatever the properties the stack is built with, the pipe's batch
    size is 10 and its batching window 45 seconds, the queue's visibility
    timeout is 300 seconds and its retention period 10 minutes, the state
    machine's timeout is 1 minute and the log group is kept one week; the
    constructs do not depend on the properties at all. *)
Theorem operational_parameters (props : option Props) :
  constructs (PipesTestStack props) = constructs (PipesTestStack None) /\
  assoc "PipesTestPipe" (constructs (PipesTestStack props)) = Some (RPipe pipe) /\
  CfnPipe.batchSize (CfnPipe.sqsQueueParameters pipe) = 10%N /\
  CfnPipe.maximumBatchingWindowInSeconds (CfnPipe.sqsQueueParameters pipe) = 45%N /\
  assoc "PipesTestQueue" (constructs (PipesTestStack props)) = Some (RQueue queue) /\
  Queue.visibilityTimeout queue = Duration.seconds 300 /\
  Queue.retentionPeriod queue = Duration.minutes 10 /\
  Duration.toSeconds (Queue.retentionPeriod queue) = 600%N /\
  assoc "PipesTestStateMachine" (constructs (PipesTestStack props))
  = Some (RStateMachine stateMachine) /\
  StateMachine.timeout stateMachine = Duration.minutes 1 /\
  Duration.toSeconds (StateMachine.timeout stateMachine) = 60%N /\
  assoc "PipesTestStateMachineLogGroup" (constructs (PipesTestStack props))
  = Some (RLogGroup stepFnLogGroup) /\
  LogGroup.retention stepFnLogGroup = RetentionDays.ONE_WEEK /\
  RetentionDays.days (LogGroup.retention stepFnLogGroup) = 7%N.
Proof. by repeat split. Qed.

(** C10: the constructs that carry a removal policy are the table, the
    queue and the log group, each with DESTROY, and the table has deletion
    protection off. *)
Theorem stateful_resources_destroyed (props : option Props) :
  removalPolicies (PipesTestStack props)
  = [ ("PipesTestTable", DESTROY); ("PipesTestQueue", DESTROY);
      ("PipesTestStateMachineLogGroup", DESTROY) ] /\
  assoc "PipesTestTable" (constructs (PipesTestStack props)) = Some (RTable tbl) /\
  TableV2.deletionProtection tbl = false.
Proof. by repeat split. Qed.

(** * Further properties of the workflow *)

(** ** Executions that write nothing, or not everything *)

(** X1: an input in which the deep scan finds no body at all makes the
    execution succeed without a single write; the table is left as it was. *)
Theorem no_body_no_write (input : json) (w : World) :
  JsonPath.deepScan "body" input = [] ->
  execute tbl stateMachine input w = (Some (JArr []), w).
Proof.
  intros Hnone. rewrite execute_prefix, Hnone. cbn.
  f_equal. symmetry. apply world_eta.
Qed.

Lemma no_body_no_write_witness :
  execute tbl stateMachine (JArr [JObj [("messageId", JStr "m1")]]) emptyWorld
  = (Some (JArr []), emptyWorld).
Proof.
  apply (no_body_no_write (JArr [JObj [("messageId", JStr "m1")]]) emptyWorld).
  reflexivity.
Defined.

(** ** When the put-item task fails, and what it reads *)

Lemma resolveItem_reads_members (j : json) (item : Item) (name : string) :
  resolveItem dynamoDbPutItem_item j = Some item ->
  In name messageMembers -> is_Some (jfield name j).
Proof.
  intros (c & d & i & t & h & _ & Hc & Hd & Hi & Ht & Hh)%resolveItem_inv Hname.
  cbn in Hname.
  destruct Hname as [<-|[<-|[<-|[<-|[<-|[]]]]]]; try by eexists.
  - destruct (jfield "city" j); [by eexists | discriminate].
  - destruct (jfield "date" j); [by eexists | discriminate].
Qed.

(** X10: a message that lacks one of the members city, date,
    inspectTime, tempCelcius or humidityPercent makes the put-item task
    fail, and nothing is written. *)
Theorem missing_member_fails (j : json) (name : string) (w : World) :
  In name messageMembers ->
  jfield name j = None ->
  runState tbl dynamoDbPutItem j w = (None, w).
Proof.
  intros Hname Hmissing. apply runPutItem_unresolved.
  destruct (resolveItem dynamoDbPutItem_item j) as [item|] eqn:Hres; [|reflexivity].
  destruct (resolveItem_reads_members _ _ _ Hres Hname) as [v Hv]. congruence.
Qed.

Lemma missing_member_fails_witness :
  runState tbl dynamoDbPutItem
    (JObj [ ("city", JStr "Tampere"); ("date", JStr "2023-10-15");
            ("tempCelcius", JStr "5.1"); ("humidityPercent", JStr "58") ])
    emptyWorld
  = (None, emptyWorld).
Proof.
  apply (missing_member_fails _ "inspectTime" emptyWorld).
  - cbn. tauto.
  - reflexivity.
Defined.

(** X11: a message whose tempCelcius or humidityPercent is a JSON number,
    as in the comment above the task, makes the put-item task fail, and
    nothing is written; the measurements have to arrive as strings. *)
Theorem numeric_measurement_fails (j : json) (name literal : string) (w : World) :
  name = "tempCelcius" \/ name = "humidityPercent" ->
  jfield name j = Some (JNum literal) ->
  runState tbl dynamoDbPutItem j w = (None, w).
Proof.
  intros Hname Hnum.
  by apply runPutItem_unresolved, (resolveItem_numeric_measurement j name literal).
Qed.

Lemma numeric_measurement_fails_witness :
  runState tbl dynamoDbPutItem numericMessage emptyWorld = (None, emptyWorld).
Proof.
  apply (numeric_measurement_fails numericMessage "tempCelcius" "0.0" emptyWorld).
  - by left.
  - reflexivity.
Defined.

Lemma resolveItem_members_only (j1 j2 : json) :
  (forall name, In name messageMembers -> jfield name j1 = jfield name j2) ->
  resolveItem dynamoDbPutItem_item j1 = resolveItem dynamoDbPutItem_item j2.
Proof.
  intros Hsame.
  unfold dynamoDbPutItem_item, resolveItem, DynamoAttributeValue.resolve,
    JsonPath.evalExpr, JsonPath.eval.
  cbn.
  rewrite (Hsame "city"), (Hsame "date"), (Hsame "inspectTime"),
    (Hsame "tempCelcius"), (Hsame "humidityPercent") by (cbn; tauto).
  reflexivity.
Qed.

(** X12: the put-item task reads the five members of a message and
    nothing else: on two inputs that agree on them it does the same, so
    any further member of a message is neither stored nor able to make the
    task fail. *)
Theorem further_members_ignored (j1 j2 : json) (w : World) :
  (forall name, In name messageMembers -> jfield name j1 = jfield name j2) ->
  runState tbl dynamoDbPutItem j1 w = runState tbl dynamoDbPutItem j2 w.
Proof.
  intros Hsame%resolveItem_members_only.
  unfold dynamoDbPutItem, runState, runPutItem. by rewrite Hsame.
Qed.

Lemma further_members_ignored_witness :
  runState tbl dynamoDbPutItem sampleMessage emptyWorld
  = runState tbl dynamoDbPutItem
      (JObj [ ("station", JNum "17"); ("city", JStr "Tampere");
              ("date", JStr "2023-10-15");
              ("inspectTime", JStr "2023-10-15T17:00:58+03:00");
              ("tempCelcius", JStr "5.1"); ("humidityPercent", JStr "58");
              ("windSpeed", JStr "3.2") ])
      emptyWorld.
Proof.
  apply (further_members_ignored sampleMessage _ emptyWorld).
  intros name Hname. cbn in Hname.
  destruct Hname as [<-|[<-|[<-|[<-|[<-|[]]]]]]; reflexivity.
Defined.

(** An element that lacks a member, or whose measurement is a JSON number,
    is one on which the task fails. *)
Lemma malformed_fails (j : json) :
  (exists name, In name messageMembers /\ jfield name j = None) \/
  (exists name literal, (name = "tempCelcius" \/ name = "humidityPercent") /\
                        jfield name j = Some (JNum literal)) ->
  putSucceeds j = false.
Proof.
  intros Hbad.
  assert (resolveItem dynamoDbPutItem_item j = None) as Hnone.
  { destruct Hbad as [(name & Hname & Hmissing)|(name & literal & Hname & Hnum)].
    - destruct (resolveItem dynamoDbPutItem_item j) as [item|] eqn:Hres; [|reflexivity].
      destruct (resolveItem_reads_members _ _ _ Hres Hname) as [v Hv]. congruence.
    - by apply (resolveItem_numeric_measurement j name literal). }
  unfold putSucceeds. by rewrite (runPutItem_unresolved _ _ Hnone).
Qed.

(** X2: there is no rollback.  When the put-item step succeeds on the
    leading body elements and the next element lacks a member or carries a
    JSON number as a measurement, the execution fails, the items of the
    leading elements have been written in order, and nothing is written
    for the failing element or for those after it. *)
Theorem failure_keeps_earlier_writes
        (input : json) (good : list json) (bad : json) (rest : list json) (w : World) :
  JsonPath.deepScan "body" input = (good ++ bad :: rest)%list ->
  Forall (fun j => putSucceeds j = true) good ->
  (exists name, In name messageMembers /\ jfield name bad = None) \/
  (exists name literal, (name = "tempCelcius" \/ name = "humidityPercent") /\
                        jfield name bad = Some (JNum literal)) ->
  exists recs,
    execute tbl stateMachine input w
    = (None, {| records := replay tbl recs (records w); writes := writes w ++ recs |}) /\
    Forall2 (fun j item => resolveItem dynamoDbPutItem_item j = Some item) good recs /\
    Forall (fun item => is_Some (storedForm tbl item)) recs.
Proof.
  intros Hbodies Hgood Hbad%malformed_fails.
  destruct (requests_resolve _ _ (writtenPrefix_all _ Hgood)) as [Hres Hst].
  exists (writtenPrefix tbl dynamoDbPutItem_item good).
  split; [|by split].
  rewrite execute_prefix, Hbodies, (writtenPrefix_stop _ _ _ Hbad).
  rewrite decide_False; [reflexivity|].
  rewrite length_app. cbn [length].
  pose proof (writtenPrefix_length good). lia.
Qed.

Lemma failure_keeps_earlier_writes_witness :
  exists recs,
    execute tbl stateMachine
      (JArr [ JObj [("body", sampleMessage)]; JObj [("body", laterMessage)];
              JObj [("body", numericMessage)]; JObj [("body", revisedMessage)] ])
      emptyWorld
    = (None, {| records := replay tbl recs (records emptyWorld);
                writes := writes emptyWorld ++ recs |}) /\
    Forall2 (fun j item => resolveItem dynamoDbPutItem_item j = Some item)
            [sampleMessage; laterMessage] recs /\
    Forall (fun item => is_Some (storedForm tbl item)) recs.
Proof.
  apply (failure_keeps_earlier_writes _ [sampleMessage; laterMessage]
           numericMessage [revisedMessage] emptyWorld).
  - reflexivity.
  - repeat constructor.
  - right. exists "tempCelcius", "0.0". split; [by left | reflexivity].
Defined.

(** ** The other revision *)

(** X14: in the second revision of the stack the workflow writes the
    fixed item (pk test, sk test, type Test) once per execution, whatever
    the input and however many messages it carries; the table holds that
    item under the key (test, test) and every other record stays. *)
Theorem earlier_revision_writes_fixed_item (input : json) (w : World) :
  exists w',
    execute tbl Earlier.stateMachine input w = (Some (JObj []), w') /\
    writes w' = (writes w ++ [[("pk", AttrS "test"); ("sk", AttrS "test");
                               ("type", AttrS "Test")]])%list /\
    records w' !! ("test", Some "test")
    = Some [("pk", StoredS "test"); ("sk", StoredS "test"); ("type", StoredS "Test")] /\
    forall k, k <> ("test", Some "test") -> records w' !! k = records w !! k.
Proof.
  eexists. split; [reflexivity|]. cbn [records writes].
  split; [reflexivity|]. split; [apply lookup_insert_eq|].
  intros k Hk. by apply lookup_insert_ne.
Qed.

(** ** The table after an execution *)

Lemma replay_cons (t : TableV2.Props) (item : Item) (items : list Item)
      (r : gmap Key StoredItem) :
  replay t (item :: items) r
  = replay t items (match storedRecord t item with
                    | Some (k, stored) => <[k := stored]> r
                    | None => r
                    end).
Proof. reflexivity. Qed.

Lemma storedForm_storedRecord (t : TableV2.Props) (item : Item) :
  is_Some (storedRecord t item) -> is_Some (storedForm t item).
Proof. intros [[k stored] [_ H]%storedRecord_parts]. by eexists. Qed.

(** A key holds the record of the last item written with it, or what it
    held before, when the table accepts each of the items. *)
Lemma lookup_replay (t : TableV2.Props) (items : list Item) (r : gmap Key StoredItem) (k : Key) :
  Forall (fun item => is_Some (storedRecord t item)) items ->
  replay t items r !! k
  = match lastWrite t k items with
    | Some item => storedForm t item
    | None => r !! k
    end.
Proof.
  intros Hacc. revert r. induction Hacc as [|item items [[k' stored] Hrec] _ IH]; intros r;
    [reflexivity|].
  rewrite replay_cons, IH, Hrec. cbn [lastWrite].
  destruct (lastWrite t k items) as [later|]; [reflexivity|].
  apply storedRecord_parts in Hrec as [Hkey Hst].
  destruct (decide (keyOf t item = Some k)) as [Hk|Hk].
  - assert (k' = k) as -> by congruence. rewrite Hst. apply lookup_insert_eq.
  - apply lookup_insert_ne. congruence.
Qed.

Lemma replay_idempotent (t : TableV2.Props) (items : list Item) (r : gmap Key StoredItem) :
  Forall (fun item => is_Some (storedRecord t item)) items ->
  replay t items (replay t items r) = replay t items r.
Proof.
  intros Hacc. apply map_eq. intros k. rewrite !lookup_replay by done.
  by destruct (lastWrite t k items).
Qed.

Lemma writtenPrefix_accepted (inputs : list json) :
  Forall (fun item => is_Some (storedRecord tbl item))
         (writtenPrefix tbl dynamoDbPutItem_item inputs).
Proof.
  induction inputs as [|j inputs IH]; [constructor|].
  cbn [writtenPrefix].
  destruct (putRequest tbl dynamoDbPutItem_item j) as [item|] eqn:Hput; [|constructor].
  constructor; [|exact IH].
  unfold putRequest in Hput.
  destruct (resolveItem dynamoDbPutItem_item j) as [item'|]; [|discriminate].
  cbn -[storedRecord tbl] in Hput.
  destruct (storedRecord tbl item') as [rec|] eqn:Hrec; [|discriminate].
  cbn in Hput. injection Hput as <-. by eexists.
Qed.

(** With keys that are pairwise distinct, the record of each item is found
    under the key of that item. *)
Lemma replay_lookup_NoDup (t : TableV2.Props) (items : list Item) (r : gmap Key StoredItem) :
  NoDup (map (keyOf t) items) ->
  forall item k stored, In item items -> storedRecord t item = Some (k, stored) ->
                        replay t items r !! k = Some stored.
Proof.
  induction items as [|x items IH] using rev_ind; intros Hnd item k stored Hin Hrec;
    [destruct Hin|].
  rewrite map_app in Hnd. cbn [map] in Hnd.
  apply NoDup_app in Hnd as (Hnd & Hfresh & _).
  rewrite replay_snoc. apply in_app_or in Hin as [Hin|[->|[]]].
  - pose proof Hrec as [Hk _]%storedRecord_parts.
    assert (keyOf t x <> Some k) as Hne.
    { intros Hx. apply (Hfresh (Some k)).
      - apply list_elem_of_In. rewrite <- Hk. by apply in_map.
      - rewrite Hx. set_solver. }
    destruct (storedRecord t x) as [[k' s]|] eqn:Hx; [|by apply (IH Hnd item)].
    apply storedRecord_parts in Hx as [Hkx _].
    rewrite lookup_insert_ne by congruence. by apply (IH Hnd item).
  - rewrite Hrec. apply lookup_insert_eq.
Qed.

(** With keys that are pairwise distinct and new to the table, the table
    grows by one record per item. *)
Lemma replay_size_NoDup (t : TableV2.Props) (items : list Item) (r : gmap Key StoredItem) :
  NoDup (map (keyOf t) items) ->
  (forall item, In item items ->
                exists k stored, storedRecord t item = Some (k, stored) /\ r !! k = None) ->
  size (replay t items r) = size r + length items.
Proof.
  induction items as [|x items IH] using rev_ind; intros Hnd Hnew; [cbn; lia|].
  rewrite map_app in Hnd. cbn [map] in Hnd.
  apply NoDup_app in Hnd as (Hnd & Hfresh & _).
  destruct (Hnew x) as (k & stored & Hrec & Hr); [apply in_or_app; right; by left|].
  rewrite replay_snoc, Hrec, length_app. cbn [length].
  apply storedRecord_parts in Hrec as [Hk _].
  rewrite map_size_insert_None.
  - rewrite IH; [lia | exact Hnd |].
    intros item Hin. apply Hnew, in_or_app. by left.
  - rewrite replay_other; [exact Hr|].
    intros item Hin Hitem. apply (Hfresh (Some k)).
    + apply list_elem_of_In. rewrite <- Hitem. apply in_map. by apply list_elem_of_In.
    + rewrite Hk. set_solver.
Qed.

Lemma keyOf_recordOf (m : Message) : keyOf tbl (recordOf m) = Some (messageKey m).
Proof. reflexivity. Qed.

Lemma bodies_resolve_to_records (items : list json) (msgs : list Message) :
  Forall2 (fun j m => asMessage j = Some m) items msgs ->
  Forall2 (fun j item => resolveItem dynamoDbPutItem_item j = Some item)
          items (map recordOf msgs).
Proof.
  induction 1 as [|j m items msgs Hm _ IH]; cbn [map]; constructor; [|exact IH].
  by apply resolveItem_message.
Qed.

(** For messages on which the put succeeds, what is written is the item
    of each message. *)
Lemma writtenPrefix_messages (items : list json) (msgs : list Message) :
  Forall2 (fun j m => asMessage j = Some m) items msgs ->
  Forall (fun j => putSucceeds j = true) items ->
  writtenPrefix tbl dynamoDbPutItem_item items = map recordOf msgs.
Proof.
  induction 1 as [|j m items msgs Hm _ IH]; intros Hok; [reflexivity|].
  apply Forall_cons in Hok as [[item Hput]%putSucceeds_putRequest Hok].
  cbn [writtenPrefix map]. rewrite Hput, (IH Hok). f_equal.
  apply putRequest_parts in Hput as [Hres _].
  rewrite (resolveItem_message _ _ Hm) in Hres. by injection Hres as <-.
Qed.

Lemma putSucceeds_message (j : json) (m : Message) :
  asMessage j = Some m -> putSucceeds j = true ->
  exists stored, storedRecord tbl (recordOf m) = Some (messageKey m, stored).
Proof.
  intros Hm [item Hput]%putSucceeds_putRequest.
  apply putRequest_parts in Hput as [Hres [stored Hst]].
  rewrite (resolveItem_message _ _ Hm) in Hres. injection Hres as <-.
  exists stored. apply storedRecord_parts. by split.
Qed.

(** X3: a redelivered batch does no harm to the table.  Running the
    workflow a second time on the same input, on the table the first run
    left, ends the same way and leaves the same records; only the writes
    are done again. *)
Theorem redelivery_is_idempotent (input : json) (w : World) :
  let first := execute tbl stateMachine input w in
  let second := execute tbl stateMachine input (snd first) in
  fst second = fst first /\
  records (snd second) = records (snd first) /\
  length (writes (snd second)) - length (writes (snd first))
  = length (writes (snd first)) - length (writes w).
Proof.
  cbn zeta. rewrite !execute_prefix. cbn [fst snd records writes].
  split; [reflexivity|].
  split; [apply replay_idempotent, writtenPrefix_accepted|].
  rewrite !length_app. lia.
Qed.

(** X4: the last write wins.  After an execution a composite key holds
    the record of the last item the execution wrote with that key, and a
    key the execution did not write holds what it held before. *)
Theorem last_write_wins (input : json) (w : World) (k : Key) :
  exists recs,
    writes (snd (execute tbl stateMachine input w)) = (writes w ++ recs)%list /\
    Forall2 (fun j item => resolveItem dynamoDbPutItem_item j = Some item)
            (take (length recs) (JsonPath.deepScan "body" input)) recs /\
    Forall (fun item => is_Some (storedForm tbl item)) recs /\
    records (snd (execute tbl stateMachine input w)) !! k
    = match lastWrite tbl k recs with
      | Some item => storedForm tbl item
      | None => records w !! k
      end.
Proof.
  rewrite execute_prefix. cbn [snd records writes].
  destruct (requests_resolve _ _ (writtenPrefix_requests (JsonPath.deepScan "body" input)))
    as [Hres Hst].
  eexists. split; [reflexivity|]. split; [exact Hres|]. split; [exact Hst|].
  apply lookup_replay, writtenPrefix_accepted.
Qed.

(** X7: when the bodies are messages on each of which the put succeeds
    and whose composite keys are pairwise distinct, the execution succeeds
    and the record of every message can be read back under the key of that
    message; if moreover none of the keys was in the table, the table has
    grown by one record per message. *)
Theorem distinct_keys_all_stored (input : json) (msgs : list Message) (w : World) :
  Forall2 (fun j m => asMessage j = Some m) (JsonPath.deepScan "body" input) msgs ->
  Forall (fun j => putSucceeds j = true) (JsonPath.deepScan "body" input) ->
  NoDup (map messageKey msgs) ->
  is_Some (fst (execute tbl stateMachine input w)) /\
  Forall2 (fun j item => resolveItem dynamoDbPutItem_item j = Some item)
          (JsonPath.deepScan "body" input) (map recordOf msgs) /\
  (forall m, In m msgs ->
             exists stored,
               storedForm tbl (recordOf m) = Some stored /\
               records (snd (execute tbl stateMachine input w)) !! messageKey m
               = Some stored) /\
  ((forall m, In m msgs -> records w !! messageKey m = None) ->
   size (records (snd (execute tbl stateMachine input w)))
   = size (records w) + length msgs).
Proof.
  intros Hmsgs Hok Hnd.
  assert (NoDup (map (keyOf tbl) (map recordOf msgs))) as Hnd'.
  { rewrite map_map.
    rewrite (map_ext _ (fun m => Some (messageKey m))) by (intros; apply keyOf_recordOf).
    rewrite <- (map_map messageKey Some).
    apply NoDup_fmap_2; [intros ? ? [=]; done | exact Hnd]. }
  assert (forall m, In m msgs ->
                    exists stored, storedRecord tbl (recordOf m) = Some (messageKey m, stored))
    as Hacc.
  { clear Hnd Hnd'. induction Hmsgs as [|j m items msgs' Hm _ IH]; intros m' Hin; [destruct Hin|].
    apply Forall_cons in Hok as [Hj Hok]. destruct Hin as [<-|Hin].
    - by apply (putSucceeds_message j).
    - by apply IH. }
  rewrite execute_prefix, (writtenPrefix_messages _ _ Hmsgs Hok). cbn [fst snd records].
  split.
  { rewrite decide_True; [by eexists|].
    rewrite length_map. symmetry. by apply Forall2_length in Hmsgs. }
  split; [by apply bodies_resolve_to_records|].
  split.
  - intros m Hm. destruct (Hacc m Hm) as [stored Hrec]. exists stored.
    split; [by apply storedRecord_parts in Hrec as [_ ?]|].
    apply (replay_lookup_NoDup tbl _ _ Hnd' (recordOf m)); [by apply in_map | exact Hrec].
  - intros Hnew. rewrite replay_size_NoDup, length_map; [reflexivity | exact Hnd' |].
    intros item (m & <- & Hm)%in_map_iff.
    destruct (Hacc m Hm) as [stored Hrec].
    exists (messageKey m), stored. split; [exact Hrec | by apply Hnew].
Qed.

Lemma distinct_keys_all_stored_witness :
  is_Some (fst (execute tbl stateMachine
                  (JArr [JObj [("body", sampleMessage)]; JObj [("body", laterMessage)]])
                  emptyWorld)) /\
  Forall2 (fun j item => resolveItem dynamoDbPutItem_item j = Some item)
          (JsonPath.deepScan "body"
             (JArr [JObj [("body", sampleMessage)]; JObj [("body", laterMessage)]]))
          (map recordOf [sampleFields; laterFields]) /\
  (forall m, In m [sampleFields; laterFields] ->
             exists stored,
               storedForm tbl (recordOf m) = Some stored /\
               records (snd (execute tbl stateMachine
                               (JArr [JObj [("body", sampleMessage)];
                                      JObj [("body", laterMessage)]]) emptyWorld))
               !! messageKey m
               = Some stored) /\
  ((forall m, In m [sampleFields; laterFields] -> records emptyWorld !! messageKey m = None) ->
   size (records (snd (execute tbl stateMachine
                         (JArr [JObj [("body", sampleMessage)];
                                JObj [("body", laterMessage)]]) emptyWorld)))
   = size (records emptyWorld) + length [sampleFields; laterFields]).
Proof.
  apply (distinct_keys_all_stored
           (JArr [JObj [("body", sampleMessage)]; JObj [("body", laterMessage)]])
           [sampleFields; laterFields] emptyWorld).
  - repeat constructor.
  - repeat constructor.
  - apply NoDup_cons. split; [|apply NoDup_singleton].
    intros [= ]%list_elem_of_singleton.
Defined.

(** ** The composite key as an encoding of city, date and time *)

Lemma append_assoc3 (a b c : string) :
  String.append (String.append a b) c = String.append a (String.append b c).
Proof.
  induction a as [|x a IH]; [reflexivity|].
  change (String x (String.append (String.append a b) c)
          = String x (String.append a (String.append b c))).
  by rewrite IH.
Qed.

Lemma hasHash_cons (x : ascii) (s : string) :
  hasHash (String x s) = false -> Ascii.eqb x "#" = false /\ hasHash s = false.
Proof. cbn [hasHash]. apply orb_false_iff. Qed.

(** A text without [#], then [#], then anything: the two parts can be
    told apart. *)
Lemma append_hash_inj (c c' d d' : string) :
  hasHash c = false -> hasHash c' = false ->
  String.append c (String "#" d) = String.append c' (String "#" d') ->
  c = c' /\ d = d'.
Proof.
  revert c'. induction c as [|x c IH]; intros [|x' c'] Hc Hc' Heq.
  - injection Heq as ->. by split.
  - apply hasHash_cons in Hc' as [Hx' _].
    change (String "#" d = String x' (String.append c' (String "#" d'))) in Heq.
    injection Heq as <- _. discriminate.
  - apply hasHash_cons in Hc as [Hx _].
    change (String x (String.append c (String "#" d)) = String "#" d') in Heq.
    injection Heq as -> _. discriminate.
  - apply hasHash_cons in Hc as [_ Hc]. apply hasHash_cons in Hc' as [_ Hc'].
    change (String x (String.append c (String "#" d))
            = String x' (String.append c' (String "#" d'))) in Heq.
    injection Heq as -> Heq.
    destruct (IH c' Hc Hc' Heq) as [-> ->]. by split.
Qed.

Lemma messageKey_resolved (j : json) (m : Message) :
  asMessage j = Some m ->
  resolveItem dynamoDbPutItem_item j ≫= keyOf tbl = Some (messageKey m).
Proof. intros Hm. by rewrite (resolveItem_message _ _ Hm). Qed.

(** X5: as long as the city names contain no #, the composite key tells
    messages apart: two messages whose records get the same key have the
    same city, date and inspection time. *)
Theorem composite_key_injective (j1 j2 : json) (m1 m2 : Message) :
  asMessage j1 = Some m1 ->
  asMessage j2 = Some m2 ->
  hasHash (city m1) = false ->
  hasHash (city m2) = false ->
  resolveItem dynamoDbPutItem_item j1 ≫= keyOf tbl
  = resolveItem dynamoDbPutItem_item j2 ≫= keyOf tbl ->
  city m1 = city m2 /\ date m1 = date m2 /\ inspectTime m1 = inspectTime m2.
Proof.
  intros H1 H2 Hc1 Hc2.
  rewrite (messageKey_resolved _ _ H1), (messageKey_resolved _ _ H2).
  unfold messageKey. intros [= Hpk Hsk].
  change (String.append (city m1) (String "#" (date m1))
          = String.append (city m2) (String "#" (date m2))) in Hpk.
  destruct (append_hash_inj _ _ _ _ Hc1 Hc2 Hpk) as [-> ->]. by repeat split.
Qed.

Lemma composite_key_injective_witness :
  city sampleFields = "Tampere" /\ date sampleFields = "2023-10-15" /\
  inspectTime sampleFields = "2023-10-15T17:00:58+03:00".
Proof.
  apply (composite_key_injective sampleMessage revisedMessage sampleFields
           {| city := "Tampere"; date := "2023-10-15";
              inspectTime := "2023-10-15T17:00:58+03:00";
              tempCelcius := "6.4"; humidityPercent := "58" |});
    reflexivity.
Defined.

(** X6: a # in a city name breaks that.  A message for the city c#x on
    the date d and a message for the city c on the date x#d, with the same
    inspection time, get the same composite key, so the record of one
    replaces the record of the other. *)
Theorem composite_key_collision (j1 j2 : json) (m1 m2 : Message) (c x d : string) :
  asMessage j1 = Some m1 ->
  asMessage j2 = Some m2 ->
  city m1 = c ++ "#" ++ x -> date m1 = d ->
  city m2 = c -> date m2 = x ++ "#" ++ d ->
  inspectTime m1 = inspectTime m2 ->
  resolveItem dynamoDbPutItem_item j1 ≫= keyOf tbl
  = resolveItem dynamoDbPutItem_item j2 ≫= keyOf tbl.
Proof.
  intros H1 H2 Hc1 Hd1 Hc2 Hd2 Hi.
  rewrite (messageKey_resolved _ _ H1), (messageKey_resolved _ _ H2).
  unfold messageKey. rewrite Hc1, Hd1, Hc2, Hd2, Hi. do 3 f_equal.
  rewrite append_assoc3. reflexivity.
Qed.

Lemma composite_key_collision_witness :
  resolveItem dynamoDbPutItem_item
    (JObj [ ("city", JStr "Tampere#Hervanta"); ("date", JStr "2023-10-15");
            ("inspectTime", JStr "T17"); ("tempCelcius", JStr "5.1");
            ("humidityPercent", JStr "58") ]) ≫= keyOf tbl
  = resolveItem dynamoDbPutItem_item
      (JObj [ ("city", JStr "Tampere"); ("date", JStr "Hervanta#2023-10-15");
              ("inspectTime", JStr "T17"); ("tempCelcius", JStr "9.9");
              ("humidityPercent", JStr "40") ]) ≫= keyOf tbl.
Proof.
  apply (composite_key_collision _ _
           {| city := "Tampere#Hervanta"; date := "2023-10-15"; inspectTime := "T17";
              tempCelcius := "5.1"; humidityPercent := "58" |}
           {| city := "Tampere"; date := "Hervanta#2023-10-15"; inspectTime := "T17";
              tempCelcius := "9.9"; humidityPercent := "40" |}
           "Tampere" "Hervanta" "2023-10-15");
    reflexivity.
Defined.

(** ** From the pipe to the table *)

(** The input template keeps the body of an event and drops the rest. *)
Lemma renderTemplate_pipe (event : json) :
  renderTemplate (CfnPipe.inputTemplate pipe) event
  = (fun b => JObj [("body", b)]) <$> jfield "body" event.
Proof.
  unfold renderTemplate. cbn. by destruct (jfield "body" event).
Qed.

Lemma pipeInput_bodies (batch : list json) (bodies : list json) :
  Forall2 (fun event b => jfield "body" event = Some b) batch bodies ->
  pipeInput pipe batch = Some (JArr (map (fun b => JObj [("body", b)]) bodies)).
Proof.
  intros Hb. unfold pipeInput.
  rewrite (mapM_Some_2 _ batch (map (fun b => JObj [("body", b)]) bodies)); [reflexivity|].
  induction Hb as [|event b batch bodies Hev _ IH]; cbn [map]; constructor; [|exact IH].
  by rewrite renderTemplate_pipe, Hev.
Qed.

Lemma pipeInput_inv (batch : list json) (input : json) :
  pipeInput pipe batch = Some input ->
  exists bodies,
    Forall2 (fun event b => jfield "body" event = Some b) batch bodies /\
    input = JArr (map (fun b => JObj [("body", b)]) bodies).
Proof.
  unfold pipeInput. intros H.
  destruct (mapM (renderTemplate (CfnPipe.inputTemplate pipe)) batch) as [rendered|] eqn:Hm;
    [|discriminate].
  injection H as <-. apply mapM_Some_1 in Hm.
  induction Hm as [|event r batch rendered Hr _ (bodies & Hb & Heq)].
  - by exists [].
  - rewrite renderTemplate_pipe in Hr.
    destruct (jfield "body" event) as [b|] eqn:Hev; [|discriminate].
    injection Hr as <-. injection Heq as ->.
    exists (b :: bodies). split; [by constructor | reflexivity].
Qed.

(** The deep scan of a pipe input finds each body and, after it, whatever
    is stored under the name body inside it. *)
Lemma deepScan_pipe_input (bodies : list json) :
  JsonPath.deepScan "body" (JArr (map (fun b => JObj [("body", b)]) bodies))
  = flat_map (fun b => b :: JsonPath.deepScan "body" b) bodies.
Proof.
  cbn [JsonPath.deepScan]. induction bodies as [|b bodies IH]; [reflexivity|].
  cbn [map flat_map]. rewrite IH. f_equal.
  cbn. by rewrite app_nil_r.
Qed.

(** X8: what the Pass state extracts from a pipe input.  The input the
    pipe makes of a batch carries the body of each event and nothing else
    of it, and the deep scan for body then yields, event by event, the body
    followed by every value stored under the name body anywhere inside
    that body: a message with a body member of its own adds elements. *)
Theorem pass_state_on_pipe_input (batch : list json) (input : json) :
  pipeInput pipe batch = Some input ->
  exists bodies,
    Forall2 (fun event b => jfield "body" event = Some b) batch bodies /\
    input = JArr (map (fun b => JObj [("body", b)]) bodies) /\
    JsonPath.deepScan "body" input
    = flat_map (fun b => b :: JsonPath.deepScan "body" b) bodies.
Proof.
  intros (bodies & Hb & ->)%pipeInput_inv.
  exists bodies. split; [exact Hb|]. split; [reflexivity|]. apply deepScan_pipe_input.
Qed.

Lemma pass_state_on_pipe_input_witness :
  exists bodies,
    Forall2 (fun event b => jfield "body" event = Some b)
            [sqsEvent "m1" (JObj [("city", JStr "Tampere"); ("body", JStr "nested")])]
            bodies /\
    JArr [JObj [("body", JObj [("city", JStr "Tampere"); ("body", JStr "nested")])]]
    = JArr (map (fun b => JObj [("body", b)]) bodies) /\
    JsonPath.deepScan "body"
      (JArr [JObj [("body", JObj [("city", JStr "Tampere"); ("body", JStr "nested")])]])
    = flat_map (fun b => b :: JsonPath.deepScan "body" b) bodies.
Proof.
  apply (pass_state_on_pipe_input
           [sqsEvent "m1" (JObj [("city", JStr "Tampere"); ("body", JStr "nested")])]).
  reflexivity.
Defined.

Lemma flat_map_no_nested_body (bodies : list json) :
  Forall (fun b => JsonPath.deepScan "body" b = []) bodies ->
  flat_map (fun b => b :: JsonPath.deepScan "body" b) bodies = bodies.
Proof.
  induction 1 as [|b bodies Hb _ IH]; [reflexivity|].
  cbn [flat_map]. by rewrite Hb, IH.
Qed.

(** X9: from the queue to the table.  For a batch of events whose bodies
    are messages with nothing stored under the name body inside them and
    on each of which the put succeeds, the pipe produces an input, the
    execution on it succeeds, and it writes exactly the items of the
    messages, one per event and in the order of the batch. *)
Theorem batch_of_messages_is_stored (batch : list json) (msgs : list Message) (w : World) :
  Forall2 (fun event m =>
             exists b, jfield "body" event = Some b /\ asMessage b = Some m /\
                       JsonPath.deepScan "body" b = [] /\ putSucceeds b = true) batch msgs ->
  exists input,
    pipeInput pipe batch = Some input /\
    execute tbl stateMachine input w
    = (Some (JArr (replicate (length batch) (JObj []))),
       {| records := replay tbl (map recordOf msgs) (records w);
          writes := writes w ++ map recordOf msgs |}).
Proof.
  intros Hbatch.
  assert (exists bodies,
             Forall2 (fun event b => jfield "body" event = Some b) batch bodies /\
             Forall2 (fun b m => asMessage b = Some m) bodies msgs /\
             Forall (fun b => JsonPath.deepScan "body" b = []) bodies /\
             Forall (fun b => putSucceeds b = true) bodies)
    as (bodies & Hev & Hmsg & Hflat & Hok).
  { induction Hbatch as [|event m batch msgs (b & Hb & Hm & Hn & Hs) _ (bodies & ? & ? & ? & ?)].
    - exists []. by repeat split; constructor.
    - exists (b :: bodies). by repeat split; constructor. }
  eexists. split; [by apply pipeInput_bodies|].
  rewrite execute_prefix, deepScan_pipe_input, (flat_map_no_nested_body _ Hflat),
    (writtenPrefix_messages _ _ Hmsg Hok).
  rewrite length_map.
  rewrite <- (Forall2_length _ _ _ Hmsg), (Forall2_length _ _ _ Hev).
  by rewrite decide_True.
Qed.

Lemma batch_of_messages_is_stored_witness :
  exists input,
    pipeInput pipe [sqsEvent "m1" laterMessage; sqsEvent "m2" sampleMessage] = Some input /\
    execute tbl stateMachine input emptyWorld
    = (Some (JArr (replicate (length [sqsEvent "m1" laterMessage; sqsEvent "m2" sampleMessage])
                             (JObj []))),
       {| records := replay tbl (map recordOf [laterFields; sampleFields]) (records emptyWorld);
          writes := writes emptyWorld ++ map recordOf [laterFields; sampleFields] |}).
Proof.
  apply (batch_of_messages_is_stored
           [sqsEvent "m1" laterMessage; sqsEvent "m2" sampleMessage]
           [laterFields; sampleFields] emptyWorld).
  repeat constructor.
  - exists laterMessage. by repeat split.
  - exists sampleMessage. by repeat split.
Defined.

(** ** More on the role of the pipe *)

Lemma pipeRole_allows (action resource : string) :
  allows (Role.policy pipeRole) action resource = true <->
    (resource = "PipesTestQueue" /\
     (action = "sqs:ReceiveMessage" \/ action = "sqs:DeleteMessage" \/
      action = "sqs:GetQueueAttributes")) \/
    action = "states:ListStateMachines" \/
    (resource = "PipesTestStateMachine" /\
     ((exists rest, action = "states:Start" ++ rest) \/
      (exists rest, action = "states:Stop" ++ rest))).
Proof.
  unfold allows, statementAllows, resourceMatches. cbn [Role.policy pipeRole Role.addToPolicy
    app existsb actions resources].
  rewrite !orb_false_r, !orb_true_iff, !andb_true_iff, !orb_true_iff, !String.eqb_eq.
  rewrite !globMatch_literal by reflexivity.
  rewrite (globMatch_prefix "states:Start"), (globMatch_prefix "states:Stop") by reflexivity.
  intuition (subst; auto).
Qed.

(** X13: the role of the pipe is confined to the queue service and the
    workflow service.  Whatever it is granted is an sqs: action, and then
    on the queue, or a states: action; it has no permission of any other
    service, on the table in particular. *)
Theorem pipe_role_confined (action resource : string) :
  allows (Role.policy pipeRole) action resource = true ->
  ((exists rest, action = "sqs:" ++ rest) /\ resource = "PipesTestQueue") \/
  (exists rest, action = "states:" ++ rest).
Proof.
  intros H. apply pipeRole_allows in H.
  destruct H as [[Hq Ha]|[Ha|[_ [[rest Ha]|[rest Ha]]]]]; subst.
  - left. split; [|reflexivity]. destruct Ha as [Ha|[Ha|Ha]]; subst; by eexists.
  - right. by eexists.
  - right. by exists ("Start" ++ rest).
  - right. by exists ("Stop" ++ rest).
Qed.

Lemma pipe_role_confined_witness :
  ((exists rest, "sqs:DeleteMessage" = "sqs:" ++ rest) /\ "PipesTestQueue" = "PipesTestQueue") \/
  (exists rest, "sqs:DeleteMessage" = "states:" ++ rest).
Proof.
  apply (pipe_role_confined "sqs:DeleteMessage" "PipesTestQueue"). reflexivity.
Defined.

(** ** Bounds on what one execution writes *)

Lemma replay_size_bounds (t : TableV2.Props) (items : list Item) (r : gmap Key StoredItem) :
  size r <= size (replay t items r) /\
  size (replay t items r) <= size r + length items.
Proof.
  induction items as [|x items IH] using rev_ind; [cbn; lia|].
  rewrite replay_snoc, length_app. cbn [length].
  destruct (storedRecord t x) as [[k stored]|]; [|lia].
  rewrite map_size_insert. destruct (replay t items r !! k); unfold id; lia.
Qed.

(** X15: an execution writes at most one record per extracted body
    element, the table never loses a record by it, and it gains at most as
    many records as there are body elements. *)
Theorem writes_bounded_by_bodies (input : json) (w : World) :
  length (writes (snd (execute tbl stateMachine input w)))
  <= length (writes w) + length (JsonPath.deepScan "body" input) /\
  size (records w) <= size (records (snd (execute tbl stateMachine input w))) /\
  size (records (snd (execute tbl stateMachine input w)))
  <= size (records w) + length (JsonPath.deepScan "body" input).
Proof.
  rewrite execute_prefix. cbn [snd records writes]. rewrite length_app.
  pose proof (writtenPrefix_length (JsonPath.deepScan "body" input)).
  pose proof (replay_size_bounds tbl
                (writtenPrefix tbl dynamoDbPutItem_item (JsonPath.deepScan "body" input))
                (records w)).
  lia.
Qed.

Lemma bodies_without_nested_body (batch bodies : list json) :
  Forall2 (fun event b => jfield "body" event = Some b) batch bodies ->
  Forall (fun event => forall b, jfield "body" event = Some b ->
                                 JsonPath.deepScan "body" b = []) batch ->
  Forall (fun b => JsonPath.deepScan "body" b = []) bodies.
Proof.
  induction 1 as [|event b batch bodies Hb _ IH]; intros Hflat; [constructor|].
  apply Forall_cons in Hflat as [Hev Hflat]. constructor; [by apply Hev | by apply IH].
Qed.

(** X16: the batch size of the pipe bounds the work of an execution.
    For a batch of at most [batchSize] events whose bodies have nothing
    stored under the name body inside them, the execution on the pipe's
    input performs at most 10 writes, whatever the bodies are. *)
Theorem at_most_ten_writes_per_batch (batch : list json) (input : json) (w : World) :
  pipeInput pipe batch = Some input ->
  (N.of_nat (length batch) <= CfnPipe.batchSize (CfnPipe.sqsQueueParameters pipe))%N ->
  Forall (fun event => forall b, jfield "body" event = Some b ->
                                 JsonPath.deepScan "body" b = []) batch ->
  length (writes (snd (execute tbl stateMachine input w))) <= length (writes w) + 10.
Proof.
  intros (bodies & Hb & ->)%pipeInput_inv Hsize Hflat.
  rewrite execute_prefix. cbn [snd writes]. rewrite length_app.
  rewrite deepScan_pipe_input,
    (flat_map_no_nested_body _ (bodies_without_nested_body _ _ Hb Hflat)).
  pose proof (writtenPrefix_length bodies).
  apply Forall2_length in Hb. cbn in Hsize. lia.
Qed.

Lemma at_most_ten_writes_per_batch_witness :
  length (writes (snd (execute tbl stateMachine sampleInput emptyWorld)))
  <= length (writes emptyWorld) + 10.
Proof.
  apply (at_most_ten_writes_per_batch
           [sqsEvent "m1" sampleMessage; sqsEvent "m2" revisedMessage]
           sampleInput emptyWorld).
  - reflexivity.
  - cbn. lia.
  - repeat constructor; intros b [= <-]; reflexivity.
Defined.
